(** * tk-multi-loader2: the publish models

    A shallow embedding of the two Shotgun-backed Qt models of the loader,
    [SgLatestPublishModel] (python/tk_multi_loader/publishmodel.py) and
    [SgPublishHistoryModel] (python/tk_multi_loader/model_publishhistory.py),
    followed by the properties of their hooks.

    Layout of the file:
    - [Py]: the Python values the hooks touch, exceptions, insertion-ordered
      dictionaries;
    - [Qt]: standard items with their role data;
    - [SgLatestPublishModel], [SgPublishHistoryModel]: the methods, written
      in a state-and-exception monad over the model object;
    - the theorems. *)

From Stdlib Require Import ZArith String List Sorted Permutation DecimalString.
From stdpp Require Import gmap strings list fin_maps.

Set Warnings "-register-all,-clear-no-such-hyp".

Local Open Scope string_scope.
Local Open Scope Z_scope.

(** ** Python values *)

Module Py.

(** The exceptions the modelled code can raise. *)
Inductive exn :=
| KeyError (k : string)
| TypeError.

Inductive result (A : Type) :=
| Ok (a : A)
| Raise (e : exn).
Arguments Ok {A} a.
Arguments Raise {A} e.

Definition bind {A B} (r : result A) (k : A → result B) : result B :=
  match r with
  | Ok a => k a
  | Raise e => Raise e
  end.

(** A Shotgun entity link, [{"type": .., "id": .., "name": ..}]; the
    display name may be [None]. *)
Record entity_link := EntityLink {
  link_type : string;
  link_id : Z;
  link_name : option string;
}.

(** The values found in the fields of a Shotgun record. *)
Inductive value :=
| VNone
| VInt (n : Z)
| VStr (s : string)
| VLink (l : entity_link).

(** A Shotgun record: the dictionary returned by [find()]. The identity
    pair ["type"], ["id"] is always there; the other keys are the fields
    that were asked for. *)
Record sg_dict := SgDict {
  sg_type : string;
  sg_id : Z;
  sg_fields : gmap string value;
}.

#[global] Instance exn_eq_dec : EqDecision exn.
Proof. solve_decision. Defined.
#[global] Instance result_eq_dec `{EqDecision A} : EqDecision (result A).
Proof. solve_decision. Defined.
#[global] Instance entity_link_eq_dec : EqDecision entity_link.
Proof. solve_decision. Defined.
#[global] Instance value_eq_dec : EqDecision value.
Proof. solve_decision. Defined.
#[global] Instance sg_dict_eq_dec : EqDecision sg_dict.
Proof. solve_decision. Defined.

(** [bool(v)] *)
Definition truthy (v : value) : bool :=
  match v with
  | VNone => false
  | VInt n => negb (Z.eqb n 0)
  | VStr s => negb (String.eqb s "")
  | VLink _ => true
  end.

Definition of_name (n : option string) : value :=
  match n with
  | Some s => VStr s
  | None => VNone
  end.

(** [k in d], [d[k]] and [d.get(k)] on a record *)
Definition lookup_field (d : sg_dict) (k : string) : option value :=
  if decide (k = "type") then Some (VStr (sg_type d))
  else if decide (k = "id") then Some (VInt (sg_id d))
  else sg_fields d !! k.

Definition getitem (d : sg_dict) (k : string) : result value :=
  match lookup_field d k with
  | Some v => Ok v
  | None => Raise (KeyError k)
  end.

Definition get (d : sg_dict) (k : string) : value :=
  match lookup_field d k with
  | Some v => v
  | None => VNone
  end.

(** [v[k]] on a field value: only a link can be subscripted by a string. *)
Definition subscript (v : value) (k : string) : result value :=
  match v with
  | VLink l =>
      if decide (k = "type") then Ok (VStr (link_type l))
      else if decide (k = "id") then Ok (VInt (link_id l))
      else if decide (k = "name") then Ok (of_name (link_name l))
      else Raise (KeyError k)
  | _ => Raise TypeError
  end.

Section Str.
(** The text Python prints for a dictionary is left open: it is the only
    part of [str()] that depends on the interpreter. *)
Variable repr_link : entity_link → string.

(** [str(v)], as used by the [%s] conversion *)
Definition str (v : value) : string :=
  match v with
  | VNone => "None"
  | VInt n => NilZero.string_of_int (Z.to_int n)
  | VStr s => s
  | VLink l => repr_link l
  end.
End Str.

(** *** Dictionaries

    A [dict] keeps its keys in insertion order; assigning to a key that is
    already there replaces the value and leaves the key where it is. That
    is the order of Python 3.7 and later; an older interpreter iterates in
    hash order. The order only shows in the order of [values()], and what is
    stated below about a list built from it is stated up to the order of
    that list. *)
Section Dict.
Context {K V : Type} `{EqDecision K}.

Definition dict := list (K * V).

Fixpoint dict_get (d : dict) (k : K) : option V :=
  match d with
  | [] => None
  | (k', v) :: d' => if decide (k = k') then Some v else dict_get d' k
  end.

(** [d[k] = v] *)
Fixpoint dict_set (d : dict) (k : K) (v : V) : dict :=
  match d with
  | [] => [(k, v)]
  | (k', v') :: d' =>
      if decide (k = k') then (k, v) :: d' else (k', v') :: dict_set d' k v
  end.

Definition dict_keys (d : dict) : list K := map fst d.
Definition dict_values (d : dict) : list V := map snd d.
End Dict.
Arguments dict : clear implicits.

(** [d[k] += 1] on a [defaultdict(int)] *)
Definition dict_incr {K} `{EqDecision K} (d : dict K nat) (k : K) : dict K nat :=
  dict_set d k (S (default 0%nat (dict_get d k))).

End Py.

#[global] Instance result_ret : MRet Py.result := @Py.Ok.
#[global] Instance result_bind : MBind Py.result := λ A B k r, Py.bind r k.

(** ** Qt items *)

Module Qt.
Import Py.

(** [QtCore.Qt.UserRole] *)
Definition UserRole : Z := 256.

Definition QImage := string.

Inductive QPixmap :=
| Resource (path : string)
| fromImage (image : QImage).

Inductive QIcon :=
| IconOf (p : QPixmap)
(** the composite built by [utils.create_overlayed_user_publish_thumbnail] *)
| overlayed (publish_thumb user_thumb : option QPixmap).

(** An item of the entity tree view, as far as the publish model reads it:
    its [text()] and its [data(ShotgunModel.SG_DATA_ROLE)]. *)
Record tree_view_item := TreeViewItem {
  tv_text : string;
  tv_sg_data : option sg_dict;
}.

(** What [setData] stores under a role. *)
Inductive variant :=
| QValue (v : value)
| QBool (b : bool)
| QSgData (d : sg_dict)
| QTreeItem (t : tree_view_item)
| QPix (p : QPixmap).

Definition QNone : variant := QValue VNone.

Record QStandardItem := Item {
  icon : option QIcon;
  text : string;
  roles : gmap Z variant;
}.

Definition setData (v : variant) (role : Z) (item : QStandardItem) : QStandardItem :=
  {| icon := icon item; text := text item; roles := <[role := v]> (roles item) |}.

Definition setIcon (p : QIcon) (item : QStandardItem) : QStandardItem :=
  {| icon := Some p; text := text item; roles := roles item |}.

(** [item.data(role)]: [None] for a role that was never set *)
Definition data (item : QStandardItem) (role : Z) : variant :=
  match roles item !! role with
  | Some v => v
  | None => QNone
  end.

Definition as_pixmap (v : variant) : option QPixmap :=
  match v with
  | QPix p => Some p
  | _ => None
  end.

#[global] Instance QPixmap_eq_dec : EqDecision QPixmap.
Proof. solve_decision. Defined.
#[global] Instance QIcon_eq_dec : EqDecision QIcon.
Proof. solve_decision. Defined.
#[global] Instance tree_view_item_eq_dec : EqDecision tree_view_item.
Proof. solve_decision. Defined.
#[global] Instance variant_eq_dec : EqDecision variant.
Proof. solve_decision. Defined.
#[global] Instance QStandardItem_eq_dec : EqDecision QStandardItem.
Proof. solve_decision. Defined.

End Qt.

(** ** Methods of a model object

    A method reads and updates the object it is called on and may raise:
    [M S A] threads the object and stops at the first exception, keeping the
    updates made before it. *)

Definition M (S A : Type) : Type := S → S * Py.result A.

#[global] Instance M_ret {S} : MRet (M S) := λ A a s, (s, Py.Ok a).
#[global] Instance M_bind {S} : MBind (M S) := λ A B k m s,
  match m s with
  | (s', Py.Ok a) => k a s'
  | (s', Py.Raise e) => (s', Py.Raise e)
  end.

Definition gets {S A} (f : S → A) : M S A := λ s, (s, Py.Ok (f s)).
Definition modify {S} (f : S → S) : M S unit := λ s, (f s, Py.Ok tt).
Definition lift {S A} (r : Py.result A) : M S A := λ s, (s, r).

(** [for x in xs: body(x)] *)
Fixpoint for_ {S A} (xs : list A) (body : A → M S unit) : M S unit :=
  match xs with
  | [] => mret tt
  | x :: xs' => body x ;; for_ xs' body
  end.

(** ** publishmodel.py *)

Module SgLatestPublishModel.
Import Py Qt.

Definition TYPE_ID_ROLE : Z := UserRole + 101.
Definition IS_FOLDER_ROLE : Z := UserRole + 102.
Definition ASSOCIATED_TREE_VIEW_ITEM_ROLE : Z := UserRole + 103.

(** A Shotgun filter [[field, op, value]] and a sort key
    [{"field_name": .., "direction": ..}]. *)
Definition sg_filter : Type := string * string * value.
Definition sg_order : Type := string * string.

(** The calls a method can make on the base class ([load_data] and
    [refresh_data] among them) and on the publish type model; the model
    object records them in the order they are made. *)
Inductive call :=
| ShotgunModel_load_data (entity_type : string) (filters : option (list sg_filter))
    (hierarchy : list string) (fields : list string) (order : list sg_order)
| refresh_data
| _show_overlay_pixmap (p : QPixmap)
| set_active_types (type_id_aggregates : dict value nat)
| _request_thumbnail_download (item : QStandardItem) (url type_ id : value).

Record model := Model {
  _publish_type_field : string;
  _treeview_folder_items : list tree_view_item;
  _folder_items : list QStandardItem;
  (** the rows of the underlying [QStandardItemModel] *)
  rows : list QStandardItem;
  calls : list call;
}.

Definition _no_pubs_found_icon : QPixmap := Resource ":/res/no_publishes_found.png".
Definition _folder_icon : QPixmap := Resource ":/res/publish_folder.png".
Definition _loading_icon : QPixmap := Resource ":/res/publish_loading.png".

Definition do_call (c : call) : M model unit :=
  modify (λ self, {| _publish_type_field := _publish_type_field self;
                     _treeview_folder_items := _treeview_folder_items self;
                     _folder_items := _folder_items self;
                     rows := rows self;
                     calls := calls self ++ [c] |}).

Definition appendRow (item : QStandardItem) : M model unit :=
  modify (λ self, {| _publish_type_field := _publish_type_field self;
                     _treeview_folder_items := _treeview_folder_items self;
                     _folder_items := _folder_items self;
                     rows := rows self ++ [item];
                     calls := calls self |}).

Definition set_publish_type_field (f : string) : M model unit :=
  modify (λ self, {| _publish_type_field := f;
                     _treeview_folder_items := _treeview_folder_items self;
                     _folder_items := _folder_items self;
                     rows := rows self;
                     calls := calls self |}).

Definition set_treeview_folder_items (l : list tree_view_item) : M model unit :=
  modify (λ self, {| _publish_type_field := _publish_type_field self;
                     _treeview_folder_items := l;
                     _folder_items := _folder_items self;
                     rows := rows self;
                     calls := calls self |}).

Definition set_folder_items (l : list QStandardItem) : M model unit :=
  modify (λ self, {| _publish_type_field := _publish_type_field self;
                     _treeview_folder_items := _treeview_folder_items self;
                     _folder_items := l;
                     rows := rows self;
                     calls := calls self |}).

(** [load_data]. [publish_entity_type] is what
    [tank.util.get_published_file_entity_type] answers for the running
    bundle. *)
Definition load_data (publish_entity_type : string)
    (sg_entity_link : value) (treeview_folder_items : list tree_view_item)
    : M model unit :=
  (if decide (publish_entity_type = "PublishedFile")
   then set_publish_type_field "published_file_type"
   else set_publish_type_field "tank_type") ;;
  publish_type_field ← gets _publish_type_field;
  let publish_fields :=
    ["name"; "entity"; "version_number"; "image"; publish_type_field] in
  let sg_filters :=
    if truthy sg_entity_link
    then Some [("entity", "is", sg_entity_link)]
    else None in
  set_treeview_folder_items treeview_folder_items ;;
  do_call (ShotgunModel_load_data publish_entity_type sg_filters ["code"]
             publish_fields [("version_number", "asc")]).

(** [_populate_item] updates the item it is given in place and only reads
    the model: the item is the state here. *)
Definition _populate_item (self : model) (sg_data : sg_dict)
    : M QStandardItem unit :=
  modify (setData (QBool false) IS_FOLDER_ROLE) ;;
  modify (setIcon (IconOf _loading_icon)) ;;
  let type_link := get sg_data (_publish_type_field self) in
  type_id ← (if truthy type_link
             then lift (subscript type_link "id")
             else mret VNone);
  modify (setData (QValue type_id) TYPE_ID_ROLE).

Definition append_folder_item (item : QStandardItem) : M model unit :=
  modify (λ self, {| _publish_type_field := _publish_type_field self;
                     _treeview_folder_items := _treeview_folder_items self;
                     _folder_items := _folder_items self ++ [item];
                     rows := rows self;
                     calls := calls self |}).

Section LoadExternalData.
(** [ShotgunModel.SG_DATA_ROLE], a constant of the base class. *)
Variable SG_DATA_ROLE : Z.

(** The item built for one folder, before it is appended. *)
Definition folder_item (tree_view_item : tree_view_item) : QStandardItem :=
  let item := Item (Some (IconOf _folder_icon)) (tv_text tree_view_item) ∅ in
  let item := setData QNone TYPE_ID_ROLE item in
  let item := setData (QBool true) IS_FOLDER_ROLE item in
  let item := setData (QTreeItem tree_view_item) ASSOCIATED_TREE_VIEW_ITEM_ROLE item in
  let treeview_sg_data := tv_sg_data tree_view_item in
  setData (match treeview_sg_data with
           | Some d => QSgData d
           | None => QNone
           end) SG_DATA_ROLE item.

(** The body of the loop of [_load_external_data]. *)
Definition load_external_item (tree_view_item : tree_view_item) : M model unit :=
  let item := folder_item tree_view_item in
  match tv_sg_data tree_view_item with
  | Some treeview_sg_data =>
      if truthy (get treeview_sg_data "image") then
        image ← lift (getitem treeview_sg_data "image");
        type_ ← lift (getitem treeview_sg_data "type");
        id ← lift (getitem treeview_sg_data "id");
        do_call (_request_thumbnail_download item image type_ id)
      else mret tt
  | None => mret tt
  end ;;
  appendRow item ;;
  append_folder_item item.

Definition _load_external_data : M model unit :=
  set_folder_items [] ;;
  treeview_folder_items ← gets _treeview_folder_items;
  for_ treeview_folder_items load_external_item.
End LoadExternalData.

(** The value kept in [unique_data]:
    [{"sg_item": sg_item, "type_id": type_id}]. *)
Record entry := Entry {
  sg_item : sg_dict;
  type_id : value;
}.

Section BeforeDataProcessing.
Variable repr_link : entity_link → string.

(** The first half of the body of the first loop: the label and the type
    id of one record. *)
Definition label_and_type_id (publish_type_field : string) (sg_item : sg_dict)
    : result (string * value) :=
  type_link ← getitem sg_item publish_type_field;
  '(type_id, type_name) ←
    (if truthy type_link then
       type_id ← subscript type_link "id";
       type_name ← subscript type_link "name";
       mret (type_id, type_name)
     else mret (VNone, VStr "No Type"));
  name ← getitem sg_item "name";
  let label := str repr_link name ++ ", " ++ str repr_link type_name in
  mret (label, type_id).

(** FIRST PASS: [unique_data[label] = {...}] for each record in turn. *)
Fixpoint first_pass (publish_type_field : string) (sg_data_list : list sg_dict)
    (unique_data : dict string entry) : result (dict string entry) :=
  match sg_data_list with
  | [] => mret unique_data
  | sg_item :: rest =>
      '(label, type_id) ← label_and_type_id publish_type_field sg_item;
      first_pass publish_type_field rest
        (dict_set unique_data label {| sg_item := sg_item; type_id := type_id |})
  end.

(** SECOND PASS over [unique_data.values()]. *)
Fixpoint second_pass (values : list entry) (new_sg_data : list sg_dict)
    (type_id_aggregates : dict value nat) : list sg_dict * dict value nat :=
  match values with
  | [] => (new_sg_data, type_id_aggregates)
  | second_pass_data :: rest =>
      second_pass rest
        (new_sg_data ++ [sg_item second_pass_data])
        (dict_incr type_id_aggregates (type_id second_pass_data))
  end.

Definition _before_data_processing (sg_data_list : list sg_dict)
    : M model (list sg_dict) :=
  treeview_folder_items ← gets _treeview_folder_items;
  if bool_decide (length sg_data_list = 0%nat)
     && bool_decide (length treeview_folder_items = 0%nat)
  then
    do_call (_show_overlay_pixmap _no_pubs_found_icon) ;;
    do_call (set_active_types []) ;;
    mret []
  else
    publish_type_field ← gets _publish_type_field;
    unique_data ← lift (first_pass publish_type_field sg_data_list []);
    let (new_sg_data, type_id_aggregates) :=
      second_pass (dict_values unique_data) [] [] in
    do_call (set_active_types type_id_aggregates) ;;
    mret new_sg_data.
End BeforeDataProcessing.

End SgLatestPublishModel.

(** ** model_publishhistory.py *)

Module SgPublishHistoryModel.
Import Py Qt.

Definition USER_THUMB_ROLE : Z := UserRole + 101.
Definition PUBLISH_THUMB_ROLE : Z := UserRole + 102.

Definition sg_filter : Type := string * string * value.

(** The running bundle, as far as [load_data] asks it: the publish entity
    type ([sgtk.util.get_published_file_entity_type(app.sgtk)]) and three
    settings, each of which may be left out of the configuration. *)
Record bundle := Bundle {
  published_file_entity_type : string;
  published_file_fields : option (list string);
  publish_history_group_by_fields : option (list string);
  publish_filters : option (list sg_filter);
}.

(** [app.get_setting(name, default)] *)
Definition get_setting {A} (setting : option A) (default_value : A) : A :=
  match setting with
  | Some v => v
  | None => default_value
  end.

Inductive call :=
| ShotgunModel__load_data (entity_type : string) (filters : list sg_filter)
    (hierarchy : list string) (fields : list string)
| _refresh_data.

Record model := Model {
  _use_version_thumbnail_as_fallback : bool;
  calls : list call;
}.

Definition do_call (c : call) : M model unit :=
  modify (λ self, {| _use_version_thumbnail_as_fallback :=
                       _use_version_thumbnail_as_fallback self;
                     calls := calls self ++ [c] |}).

(** [for field in group_by_fields: filters.append([field, "is", sg_data[field]])] *)
Fixpoint group_by_filters (sg_data : sg_dict) (group_by_fields : list string)
    (filters : list sg_filter) : result (list sg_filter) :=
  match group_by_fields with
  | [] => mret filters
  | field :: rest =>
      v ← getitem sg_data field;
      group_by_filters sg_data rest (filters ++ [(field, "is", v)])%list
  end.

Section LoadData.
(** [constants.PUBLISHED_FILES_FIELDS] *)
Variable PUBLISHED_FILES_FIELDS : list string.

Definition load_data (app : bundle) (sg_data : sg_dict) : M model unit :=
  let publish_entity_type := published_file_entity_type app in
  let publish_type_field :=
    if decide (publish_entity_type = "PublishedFile")
    then "published_file_type"
    else "tank_type" in
  let fields := ([publish_type_field] ++ PUBLISHED_FILES_FIELDS
                  ++ get_setting (published_file_fields app) [])%list in
  let group_by_fields := get_setting (publish_history_group_by_fields app) [] in
  filters ← lift (group_by_filters sg_data group_by_fields []);
  let pub_filters := get_setting (publish_filters app) [] in
  let filters := (filters ++ pub_filters)%list in
  do_call (ShotgunModel__load_data publish_entity_type filters
             ["version_number"] fields) ;;
  do_call _refresh_data.
End LoadData.

Section PopulateThumbnailImage.
(** [utils.get_thumbnail_field_for_item]: the field this item takes its
    publish thumbnail from, or [None]. *)
Variable get_thumbnail_field_for_item : QStandardItem → bool → option string.

(** The item is updated in place and the model only read: the item is
    the state. *)
Definition _populate_thumbnail_image (self : model)
    (field : string) (image : QImage) (path : string) : M QStandardItem unit :=
  image_field ← gets (λ item,
    get_thumbnail_field_for_item item (_use_version_thumbnail_as_fallback self));
  (if truthy (of_name image_field) && bool_decide (Some field = image_field) then
     let thumb := fromImage image in
     modify (setData (QPix thumb) PUBLISH_THUMB_ROLE)
   else if bool_decide (field = "created_by.HumanUser.image") then
     let thumb := fromImage image in
     modify (setData (QPix thumb) USER_THUMB_ROLE)
   else mret tt) ;;
  item ← gets (λ item, item);
  let thumb := overlayed (as_pixmap (data item PUBLISH_THUMB_ROLE))
                         (as_pixmap (data item USER_THUMB_ROLE)) in
  modify (setIcon thumb).
End PopulateThumbnailImage.

End SgPublishHistoryModel.

(** ** Vocabulary of the statements *)

Module Spec.
Import Py Qt SgLatestPublishModel.

Section Labels.
Variable repr_link : entity_link → string.
Variable publish_type_field : string.

(** The label the first pass files a record under, and the type id it
    counts it for. *)
Definition label_of (r : sg_dict) : result string :=
  p ← label_and_type_id repr_link publish_type_field r; mret (p.1).

Definition type_id_of (r : sg_dict) : result value :=
  p ← label_and_type_id repr_link publish_type_field r; mret (p.2).

(** The last record of the list that is filed under [label]. *)
Fixpoint last_with_label (label : string) (l : list sg_dict) : option sg_dict :=
  match l with
  | [] => None
  | r :: l' =>
      match last_with_label label l' with
      | Some r' => Some r'
      | None => if decide (label_of r = Ok label) then Some r else None
      end
  end.
End Labels.


(** The version of a publish, when the field holds a number. *)
Definition version_number (r : sg_dict) : option Z :=
  match lookup_field r "version_number" with
  | Some (VInt n) => Some n
  | _ => None
  end.

(** Ascending order of versions; a record without a version number sorts
    before every other. *)
Definition version_le (r r' : sg_dict) : Prop :=
  match version_number r, version_number r' with
  | None, _ => True
  | Some _, None => False
  | Some a, Some b => a ≤ b
  end.

(** Every entry of [unique_data] sits under the label of its record, with
    the type id of its record. *)
Definition coherent (repr_link : entity_link → string) (publish_type_field : string)
    (unique_data : dict string entry) : Prop :=
  ∀ label e, (label, e) ∈ unique_data →
    label_and_type_id repr_link publish_type_field (sg_item e) = Ok (label, type_id e).

(** A record as the query of [load_data] returns it: the publish type field
    is there and holds a link or [None], and the name is there. *)
Definition well_formed (publish_type_field : string) (r : sg_dict) : Prop :=
  (∃ v, lookup_field r publish_type_field = Some v ∧ (v = VNone ∨ ∃ l, v = VLink l))
  ∧ is_Some (lookup_field r "name").

End Spec.

(** ** Sample data *)

Module Sample.
Import Py Qt.

Definition repr_link (l : entity_link) : string := "{...}".

Definition maya_scene : value :=
  VLink (EntityLink "PublishedFileType" 7 (Some "Maya Scene")).

Definition publish (id : Z) (name : string) (version : Z) (type_link : value) : sg_dict :=
  SgDict "PublishedFile" id
    (<["name" := VStr name]>
      (<["version_number" := VInt version]>
        (<["published_file_type" := type_link]> ∅))).

Definition a_v1 : sg_dict := publish 1 "A" 1 maya_scene.
Definition a_v3 : sg_dict := publish 2 "A" 3 maya_scene.
Definition b_v1 : sg_dict := publish 3 "B" 1 VNone.

Definition shot_folder : tree_view_item :=
  TreeViewItem "shot_010"
    (Some (SgDict "Shot" 10 (<["image" := VStr "https://sg/thumb/10.jpg"]> ∅))).
Definition plain_folder : tree_view_item := TreeViewItem "Assets" None.

Definition latest_model : SgLatestPublishModel.model :=
  SgLatestPublishModel.Model "published_file_type" [] [] [] [].

Definition latest_model_with_folders : SgLatestPublishModel.model :=
  SgLatestPublishModel.Model "published_file_type" [shot_folder; plain_folder] [] [] [].

Definition history_model : SgPublishHistoryModel.model :=
  SgPublishHistoryModel.Model false [].

Definition app : SgPublishHistoryModel.bundle :=
  SgPublishHistoryModel.Bundle "PublishedFile" None (Some ["name"]) None.

Definition thumbnail_field (item : QStandardItem) (fallback : bool) : option string :=
  Some "image".

Definition blank_item : QStandardItem := Item None "001" ∅.

End Sample.

(** ** publishmodel.py: the thumbnail hook *)

Module SgLatestPublishThumbnail.
Import Py Qt SgLatestPublishModel.

Section PopulateThumbnail.
(** [utils.create_standard_thumbnail], the compositing of the utils
    module. *)
Variable create_standard_thumbnail : string → variant → QPixmap.

(** [_populate_thumbnail]: the item is updated in place. *)
Definition _populate_thumbnail (path : string) : M QStandardItem unit :=
  is_folder ← gets (λ item, data item IS_FOLDER_ROLE);
  let thumb := create_standard_thumbnail path is_folder in
  modify (setIcon (IconOf thumb)).
End PopulateThumbnail.

End SgLatestPublishThumbnail.

(** ** model_publishhistory.py: the item hooks *)

Module SgPublishHistoryHooks.
Import Py Qt SgPublishHistoryModel.

Definition _loading_icon : QPixmap := Resource ":/res/loading_100x100.png".

(** [item.setText(s)] *)
Definition setText (s : string) (item : QStandardItem) : QStandardItem :=
  {| icon := icon item; text := s; roles := roles item |}.

Fixpoint zeros (k : nat) : string :=
  match k with
  | O => ""
  | S k' => "0" ++ zeros k'
  end.

(** ["%03d" % n] on an integer: the decimal digits, padded with zeros after
    the sign up to a width of three. *)
Definition format_03d (n : Z) : string :=
  let digits := NilZero.string_of_int (Z.to_int (Z.abs n)) in
  if n <? 0 then "-" ++ zeros (2 - String.length digits) ++ digits
  else zeros (3 - String.length digits) ++ digits.

(** ["%03d" % v]: only a number can be formatted. *)
Definition percent_03d (v : value) : result string :=
  match v with
  | VInt n => Ok (format_03d n)
  | _ => Raise TypeError
  end.

(** The arguments of one [self._request_thumbnail_download(...)]. *)
Record thumbnail_request := Request {
  req_item : QStandardItem;
  req_field : string;
  req_url : value;
  req_entity_type : value;
  req_entity_id : value;
}.

(** The item a hook works on, and the downloads requested so far. *)
Record hooked := Hooked {
  the_item : QStandardItem;
  requests : list thumbnail_request;
}.

Definition update_item (f : QStandardItem → QStandardItem) : M hooked unit :=
  modify (λ s, {| the_item := f (the_item s); requests := requests s |}).

Definition _request_thumbnail_download (item : QStandardItem) (field : string)
    (url type_ id : value) : M hooked unit :=
  modify (λ s, {| the_item := the_item s;
                  requests := (requests s ++ [Request item field url type_ id])%list |}).

(** [_populate_item] *)
Definition _populate_item (self : model) (sg_data : sg_dict) : M hooked unit :=
  (if truthy (get sg_data "version_number") then
     s ← lift (percent_03d (get sg_data "version_number"));
     update_item (setText s)
   else mret tt) ;;
  if truthy (get sg_data "created_by.HumanUser.image") then
    item ← gets the_item;
    url ← lift (getitem sg_data "created_by.HumanUser.image");
    created_by ← lift (getitem sg_data "created_by");
    type_ ← lift (subscript created_by "type");
    created_by ← lift (getitem sg_data "created_by");
    id ← lift (subscript created_by "id");
    _request_thumbnail_download item "created_by.HumanUser.image" url type_ id
  else mret tt.

(** [_populate_default_thumbnail] *)
Definition _populate_default_thumbnail (self : model) : M QStandardItem unit :=
  modify (setData (QPix _loading_icon) PUBLISH_THUMB_ROLE) ;;
  item ← gets (λ item, item);
  let thumb := overlayed (as_pixmap (data item PUBLISH_THUMB_ROLE)) None in
  modify (setIcon thumb).

(** [async_refresh] *)
Definition async_refresh : M model unit := do_call _refresh_data.

End SgPublishHistoryHooks.

(** ** Vocabulary of the further statements *)

Module Behaviour.
Import Py Qt SgLatestPublishModel.

(** A record the first pass can label: it has a name, and its publish type
    field is there and holds a link or something falsy. *)
Definition labelable (publish_type_field : string) (r : sg_dict) : Prop :=
  is_Some (lookup_field r "name")
  ∧ ∃ v, lookup_field r publish_type_field = Some v
         ∧ (truthy v = false ∨ ∃ l, v = VLink l).

(** The name of the publish type of a record, read off the link in its
    publish type field; nothing when the field holds no link. *)
Definition publish_type_name (publish_type_field : string) (r : sg_dict)
    : option value :=
  match lookup_field r publish_type_field with
  | Some (VLink l) => Some (of_name (link_name l))
  | _ => None
  end.

(** Two records are versions of one publish: the same name and the same
    publish type name. *)
Definition same_publish (publish_type_field : string) (r r' : sg_dict) : Prop :=
  lookup_field r "name" = lookup_field r' "name"
  ∧ publish_type_name publish_type_field r = publish_type_name publish_type_field r'.

(** The label of a record, written from its name and the name of its publish
    type: ["<name>, <type name>"], with ["No Type"] for a record whose
    publish type field holds something falsy. *)
Definition label_text (repr_link : entity_link → string)
    (publish_type_field : string) (r : sg_dict) : option string :=
  match lookup_field r "name", lookup_field r publish_type_field with
  | Some name, Some (VLink l) =>
      Some (str repr_link name ++ ", " ++ str repr_link (of_name (link_name l)))
  | Some name, Some v =>
      if truthy v then None else Some (str repr_link name ++ ", No Type")
  | _, _ => None
  end.

(** The id of the publish type link of a record; [None] for a record without
    such a link. *)
Definition publish_type_id (publish_type_field : string) (r : sg_dict) : value :=
  match lookup_field r publish_type_field with
  | Some (VLink l) => VInt (link_id l)
  | _ => VNone
  end.

(** The download [_load_external_data] asks for on behalf of one folder, if
    any. *)
Definition folder_request (SG_DATA_ROLE : Z) (tv : tree_view_item) : option call :=
  match tv_sg_data tv with
  | Some d =>
      if truthy (get d "image")
      then Some (_request_thumbnail_download (folder_item SG_DATA_ROLE tv)
                   (get d "image") (VStr (sg_type d)) (VInt (sg_id d)))
      else None
  | None => None
  end.

(** The thumbnail field of an item does not depend on its icon nor on the
    data stored under the given roles. *)
Definition stable_under (get_thumbnail_field_for_item : QStandardItem → bool → option string)
    (rs : list Z) : Prop :=
  (∀ p item b, get_thumbnail_field_for_item (setIcon p item) b
               = get_thumbnail_field_for_item item b)
  ∧ (∀ v role item b, role ∈ rs →
       get_thumbnail_field_for_item (setData v role item) b
       = get_thumbnail_field_for_item item b).

(** The zero-padded texts of the versions below [m], each compared with each:
    the texts compare as strings the way the versions compare as numbers. *)
Definition padded_in_order (m : nat) : bool :=
  let table := map (λ a, (a, SgPublishHistoryHooks.format_03d (Z.of_nat a))) (seq 0 m) in
  forallb (λ p,
    forallb (λ q, Bool.eqb (Nat.ltb p.1 q.1) (String.ltb p.2 q.2)) table) table.

(** The field of the user thumbnail. *)
Definition user_image_field : string := "created_by.HumanUser.image".

End Behaviour.

(** ** Further sample data *)

Module Sample2.
Import Py Qt Sample.

Definition standard_thumbnail (path : string) (is_folder : variant) : QPixmap :=
  fromImage path.

Definition artist : value := VLink (EntityLink "HumanUser" 42 (Some "Ada")).

Definition version_by_artist : sg_dict :=
  SgDict "PublishedFile" 11
    (<["version_number" := VInt 7]>
      (<["created_by" := artist]>
        (<["created_by.HumanUser.image" := VStr "https://sg/thumb/42.jpg"]> ∅))).

Definition fresh : SgPublishHistoryHooks.hooked :=
  SgPublishHistoryHooks.Hooked blank_item [].

Definition no_type_b : sg_dict :=
  publish 6 "B" 2 (VLink (EntityLink "PublishedFileType" 9 (Some "No Type"))).

Definition nameless : sg_dict :=
  SgDict "PublishedFile" 9 (<["published_file_type" := VNone]> ∅).

Definition mistyped : sg_dict := publish 7 "C" 1 (VStr "Maya Scene").

Definition orphan_image : sg_dict :=
  SgDict "PublishedFile" 12
    (<["created_by.HumanUser.image" := VStr "https://sg/thumb/42.jpg"]> ∅).

Definition task_app : SgPublishHistoryModel.bundle :=
  SgPublishHistoryModel.Bundle "PublishedFile" None (Some ["name"; "task"]) None.

Definition grouping_app : SgPublishHistoryModel.bundle :=
  SgPublishHistoryModel.Bundle "PublishedFile" (Some ["path"])
    (Some ["name"; "version_number"])
    (Some [("sg_status_list", "is_not", VStr "omit")]).

End Sample2.

(** * Properties *)

(** ** Dictionaries *)

Section DictFacts.
Import Py.
Context {K V : Type} `{EqDecision K}.
Implicit Types (d : dict K V) (k : K) (v : V).

Lemma dict_get_set_eq d k v : dict_get (dict_set d k v) k = Some v.
Proof.
  induction d as [|[k' v'] d IH]; simpl.
  - by rewrite decide_True.
  - destruct (decide (k = k')) as [->|Hne]; simpl.
    + by rewrite decide_True.
    + by rewrite decide_False.
Qed.

Lemma dict_get_set_ne d k k' v :
  k ≠ k' → dict_get (dict_set d k v) k' = dict_get d k'.
Proof.
  intros Hne. induction d as [|[k0 v0] d IH]; simpl.
  - by rewrite decide_False.
  - destruct (decide (k = k0)) as [->|Hne0]; simpl.
    + by rewrite !decide_False.
    + destruct (decide (k' = k0)); done.
Qed.

Lemma dict_get_set d k k' v :
  dict_get (dict_set d k v) k' = if decide (k = k') then Some v else dict_get d k'.
Proof.
  destruct (decide (k = k')) as [->|Hne].
  - apply dict_get_set_eq.
  - by apply dict_get_set_ne.
Qed.

Lemma elem_of_dict_keys_set d k k' v :
  k' ∈ dict_keys (dict_set d k v) ↔ k' = k ∨ k' ∈ dict_keys d.
Proof.
  unfold dict_keys. induction d as [|[k0 v0] d IH]; simpl.
  - rewrite list_elem_of_singleton. set_solver.
  - destruct (decide (k = k0)) as [->|Hne]; simpl.
    + set_solver.
    + rewrite !elem_of_cons, IH. naive_solver.
Qed.

Lemma dict_keys_set_NoDup d k v :
  NoDup (dict_keys d) → NoDup (dict_keys (dict_set d k v)).
Proof.
  unfold dict_keys. induction d as [|[k0 v0] d IH]; simpl; intros Hnd.
  - apply NoDup_singleton.
  - apply NoDup_cons in Hnd as [Hnotin Hnd].
    destruct (decide (k = k0)) as [->|Hne]; simpl.
    + by apply NoDup_cons.
    + apply NoDup_cons. split; [|by apply IH].
      intros Hin. apply (elem_of_dict_keys_set d k k0 v) in Hin.
      destruct Hin as [->|Hin]; done.
Qed.

Lemma dict_get_None d k : dict_get d k = None ↔ k ∉ dict_keys d.
Proof.
  unfold dict_keys. induction d as [|[k0 v0] d IH]; simpl.
  - set_solver.
  - rewrite not_elem_of_cons. destruct (decide (k = k0)); naive_solver.
Qed.

Lemma dict_get_Some_elem d k v : dict_get d k = Some v → (k, v) ∈ d.
Proof.
  induction d as [|[k0 v0] d IH]; simpl; [done|].
  destruct (decide (k = k0)) as [->|Hne].
  - intros [= ->]. apply list_elem_of_here.
  - intros Hget. apply list_elem_of_further. by apply IH.
Qed.

Lemma dict_get_Some_elem_inv d k k' v v' :
  (k', v') ∈ dict_set d k v → (k' = k ∧ v' = v) ∨ (k', v') ∈ d.
Proof.
  induction d as [|[k0 v0] d IH]; simpl.
  - rewrite list_elem_of_singleton. intros [= -> ->]. by left.
  - destruct (decide (k = k0)) as [->|Hne].
    + rewrite !elem_of_cons. intros [[= -> ->]|Hin]; [by left|by right; right].
    + rewrite !elem_of_cons. intros [Heq|Hin]; [by right; left|].
      destruct (IH Hin) as [?|?]; [by left|by right; right].
Qed.

Lemma dict_elem_get d k v : NoDup (dict_keys d) → (k, v) ∈ d → dict_get d k = Some v.
Proof.
  unfold dict_keys. induction d as [|[k0 v0] d IH]; simpl; intros Hnd Hin.
  - by apply elem_of_nil in Hin.
  - apply NoDup_cons in Hnd as [Hnotin Hnd].
    apply elem_of_cons in Hin as [[= <- <-]|Hin].
    + by rewrite decide_True.
    + rewrite decide_False; [by apply IH|].
      intros ->. apply Hnotin. apply list_elem_of_fmap. by exists (k0, v).
Qed.
End DictFacts.


(** ** The first pass of [_before_data_processing] *)

Section FirstPass.
Import Py Qt SgLatestPublishModel Spec.
Variable repr_link : entity_link → string.
Variable fld : string.

Local Abbreviation lat := (label_and_type_id repr_link fld).
Local Abbreviation label_of := (Spec.label_of repr_link fld).
Local Abbreviation type_id_of := (Spec.type_id_of repr_link fld).
Local Abbreviation last_with_label := (Spec.last_with_label repr_link fld).
Local Abbreviation first_pass := (SgLatestPublishModel.first_pass repr_link fld).
Local Abbreviation coherent := (Spec.coherent repr_link fld).

Lemma first_pass_cons r l d d' :
first_pass (r :: l) d = Ok d' →
∃ label tid, lat r = Ok (label, tid)
  ∧ first_pass l (dict_set d label (Entry r tid)) = Ok d'.
Proof.
simpl. destruct (lat r) as [[label tid]|e]; simpl; [|done].
intros Hrest. by exists label, tid.
Qed.

Lemma label_of_lat r label tid : lat r = Ok (label, tid) → label_of r = Ok label.
Proof. unfold Spec.label_of. by intros ->. Qed.

Lemma type_id_of_lat r label tid : lat r = Ok (label, tid) → type_id_of r = Ok tid.
Proof. unfold Spec.type_id_of. by intros ->. Qed.

Lemma label_of_Ok r label :
label_of r = Ok label → ∃ tid, lat r = Ok (label, tid).
Proof.
unfold Spec.label_of. destruct (lat r) as [[label' tid]|e]; simpl; [|done].
intros [= ->]. by exists tid.
Qed.

Lemma first_pass_coherent l d d' :
coherent d → first_pass l d = Ok d' → coherent d'.
Proof.
revert d. induction l as [|r l IH]; intros d Hco Hrun.
- simpl in Hrun. by injection Hrun as <-.
- apply first_pass_cons in Hrun as (label & tid & Hlat & Hrun).
  eapply IH; [|exact Hrun].
  intros label' e Hin. apply dict_get_Some_elem_inv in Hin.
  destruct Hin as [[-> ->]|Hin]; [done|by apply Hco].
Qed.

Lemma first_pass_NoDup l d d' :
NoDup (dict_keys d) → first_pass l d = Ok d' → NoDup (dict_keys d').
Proof.
revert d. induction l as [|r l IH]; intros d Hnd Hrun.
- simpl in Hrun. by injection Hrun as <-.
- apply first_pass_cons in Hrun as (label & tid & Hlat & Hrun).
  eapply IH; [|done]. by apply dict_keys_set_NoDup.
Qed.

Lemma first_pass_labelled l d d' :
first_pass l d = Ok d' → Forall (λ r, ∃ label, label_of r = Ok label) l.
Proof.
revert d. induction l as [|r l IH]; intros d Hrun; [done|].
apply first_pass_cons in Hrun as (label & tid & Hlat & Hrun).
constructor; [|by eapply IH].
exists label. by eapply label_of_lat.
Qed.

(** After the first pass a label holds the last record of the list filed
  under it, or what it held before when the list has none. *)
Lemma first_pass_lookup l d d' label :
first_pass l d = Ok d' →
sg_item <$> dict_get d' label =
  match last_with_label label l with
  | Some r => Some r
  | None => sg_item <$> dict_get d label
  end.
Proof.
revert d. induction l as [|r l IH]; intros d Hrun.
- simpl in Hrun. by injection Hrun as <-.
- apply first_pass_cons in Hrun as (label' & tid & Hlat & Hrun).
  rewrite (IH _ Hrun). simpl.
  destruct (last_with_label label l); [done|].
  rewrite dict_get_set, (label_of_lat _ _ _ Hlat).
  destruct (decide (label' = label)) as [->|Hne].
  + by rewrite decide_True.
  + rewrite decide_False; [done|congruence].
Qed.

Lemma first_pass_lookup_nil l d' label :
first_pass l [] = Ok d' →
sg_item <$> dict_get d' label = last_with_label label l.
Proof.
intros Hrun. rewrite (first_pass_lookup _ _ _ label Hrun).
by destruct (last_with_label label l).
Qed.

Lemma last_with_label_Some label l r :
last_with_label label l = Some r → r ∈ l ∧ label_of r = Ok label.
Proof.
induction l as [|r0 l IH]; simpl; [done|].
destruct (last_with_label label l) as [r'|].
- intros [= ->]. destruct IH as [Hin Hlab]; [done|].
  split; [by apply list_elem_of_further|done].
- destruct (decide (label_of r0 = Ok label)); [|done].
  intros [= ->]. split; [apply list_elem_of_here|done].
Qed.





Lemma values_labels (d : dict string entry) :
coherent d → Forall2 (λ r label, label_of r = Ok label)
                (sg_item <$> dict_values d) (dict_keys d).
Proof.
unfold dict_values, dict_keys.
induction d as [|[k0 e0] d IH]; simpl; intros Hco; constructor.
- eapply label_of_lat, Hco, list_elem_of_here.
- apply IH. intros k e' Hin. apply Hco. by apply list_elem_of_further.
Qed.

Lemma second_pass_spec (vals : list entry) acc aggr :
second_pass vals acc aggr =
  ((acc ++ (sg_item <$> vals))%list, foldl dict_incr aggr (type_id <$> vals)).
Proof.
revert acc aggr. induction vals as [|e vals IH]; intros acc aggr; simpl.
- by rewrite app_nil_r.
- by rewrite IH, <- app_assoc.
Qed.

Lemma count_type_ids (vals : list entry) k :
(∀ e, e ∈ vals → type_id_of (sg_item e) = Ok (type_id e)) →
length (filter (λ r, type_id_of r = Ok k) (sg_item <$> vals)) =
length (filter (λ t, t = k) (type_id <$> vals)).
Proof.
induction vals as [|e vals IH]; intros Hco; [done|].
assert (He : type_id_of (sg_item e) = Ok (type_id e)).
{ apply Hco, list_elem_of_here. }
assert (IH' := IH (λ e' Hin, Hco e' (list_elem_of_further _ _ _ Hin))).
rewrite !fmap_cons.
destruct (decide (type_id e = k)) as [Heq|Hne].
- rewrite !filter_cons_True by congruence. cbn [length]. by rewrite IH'.
- rewrite !filter_cons_False by congruence. done.
Qed.
End FirstPass.

(** ** The aggregate of the second pass *)

Section Aggregates.
Import Py.
Context {K : Type} `{EqDecision K}.
Implicit Types (a : dict K nat) (k : K).

Lemma dict_incr_get a k k' :
default 0%nat (dict_get (dict_incr a k) k') =
(default 0%nat (dict_get a k') + if decide (k = k') then 1 else 0)%nat.
Proof.
unfold dict_incr. rewrite dict_get_set.
destruct (decide (k = k')) as [->|Hne]; simpl; lia.
Qed.

Lemma foldl_dict_incr_get ks a k :
default 0%nat (dict_get (foldl dict_incr a ks) k) =
(default 0%nat (dict_get a k) + length (filter (λ k', k' = k) ks))%nat.
Proof.
revert a. induction ks as [|k0 ks IH]; intros a; simpl; [lia|].
rewrite IH, dict_incr_get.
destruct (decide (k0 = k)) as [->|Hne].
- rewrite filter_cons_True by done. simpl. lia.
- rewrite filter_cons_False by done. lia.
Qed.

Lemma foldl_dict_incr_NoDup ks a :
  NoDup (dict_keys a) → NoDup (dict_keys (foldl dict_incr a ks)).
Proof.
  revert a. induction ks as [|k0 ks IH]; intros a Hnd; simpl; [done|].
  apply IH. by apply dict_keys_set_NoDup.
Qed.

Lemma dict_incr_sum a k :
sum_list (dict_values (dict_incr a k)) = S (sum_list (dict_values a)).
Proof.
unfold dict_incr, dict_values. induction a as [|[k0 v0] a IH]; simpl; [done|].
destruct (decide (k = k0)) as [->|Hne]; simpl; [lia|].
rewrite IH. lia.
Qed.

Lemma foldl_dict_incr_sum ks a :
sum_list (dict_values (foldl dict_incr a ks)) =
(sum_list (dict_values a) + length ks)%nat.
Proof.
revert a. induction ks as [|k0 ks IH]; intros a; simpl; [lia|].
rewrite IH, dict_incr_sum. lia.
Qed.
End Aggregates.

(** ** The label and the type id of a record, read off its fields *)

Section FieldVocabulary.
Import Py Qt SgLatestPublishModel Spec Behaviour.
Variable repr_link : entity_link → string.
Variable fld : string.

(** The label the first pass computes is the text made of the name of the
    record and the name of its publish type. *)
Lemma label_of_label_text r label :
  label_of repr_link fld r = Ok label ↔ label_text repr_link fld r = Some label.
Proof.
  unfold Spec.label_of, label_and_type_id, getitem, label_text.
  destruct (lookup_field r fld) as [v|]; simpl.
  - destruct (truthy v) eqn:Hv; simpl.
    + destruct v as [|n|s|lnk]; simpl in *; try discriminate Hv; try rewrite Hv;
        destruct (lookup_field r "name"); simpl;
        split; intros H; try discriminate H; injection H as H; subst label;
        reflexivity.
    + destruct v as [|n|s|lnk]; simpl in *; try discriminate Hv; try rewrite Hv;
        destruct (lookup_field r "name"); simpl;
        split; intros H; try discriminate H; injection H as H; subst label;
        reflexivity.
  - destruct (lookup_field r "name"); split; intros H; discriminate H.
Qed.

(** The type id the first pass stores for a record it can label is the id of
    the publish type link of the record. *)
Lemma type_id_of_publish_type_id r label :
  label_of repr_link fld r = Ok label →
  type_id_of repr_link fld r = Ok (publish_type_id fld r).
Proof.
  unfold Spec.label_of, Spec.type_id_of, label_and_type_id, getitem, publish_type_id.
  destruct (lookup_field r fld) as [v|]; simpl; [|done].
  destruct (truthy v) eqn:Hv; simpl.
  - destruct v as [|n|s|lnk]; simpl in *; try done.
    destruct (lookup_field r "name"); simpl; done.
  - destruct (lookup_field r "name"); simpl; [|done].
    destruct v as [|n|s|lnk]; simpl in *; done.
Qed.

(** Two versions of one publish that can both be labelled have one label. *)
Lemma same_publish_label_text r r' :
  same_publish fld r r' →
  is_Some (label_text repr_link fld r) →
  is_Some (label_text repr_link fld r') →
  label_text repr_link fld r = label_text repr_link fld r'.
Proof.
  unfold same_publish, publish_type_name, label_text.
  intros [Hname Htype]. rewrite <- Hname.
  destruct (lookup_field r "name") as [name|]; [|by intros [? ?]].
  destruct (lookup_field r fld) as [v|], (lookup_field r' fld) as [v'|];
    try (by intros [? ?]); try (by intros _ [? ?]).
  destruct v as [|n|s|lnk], v' as [|n'|s'|lnk']; simpl in *;
    try done; try congruence;
    repeat match goal with
           | |- context [if ?b then _ else _] => destruct b
           end;
    try done; try (by intros [? ?]); try (by intros _ [? ?]).
Qed.

Lemma filter_ext_in {A} (P Q : A → Prop) `{!∀ x, Decision (P x)} `{!∀ x, Decision (Q x)}
    (l : list A) :
  (∀ x, x ∈ l → (P x ↔ Q x)) → filter P l = filter Q l.
Proof.
  induction l as [|x l IH]; intros Hext; [done|].
  rewrite !filter_cons.
  rewrite IH by (intros y Hy; apply Hext; by apply list_elem_of_further).
  destruct (decide (P x)) as [HP|HP], (decide (Q x)) as [HQ|HQ]; try done.
  - destruct HQ. by apply (Hext x (list_elem_of_here _ _)).
  - destruct HP. by apply (Hext x (list_elem_of_here _ _)).
Qed.
End FieldVocabulary.

(** ** [SgLatestPublishModel._before_data_processing] *)

Section BeforeDataProcessingFacts.
Import Py Qt SgLatestPublishModel Spec Behaviour.
Variable repr_link : entity_link → string.

Local Abbreviation run := (_before_data_processing repr_link).

(** What a returning call has done: the first pass went through, the result
  is the values of [unique_data] in order, and the publish type model was
  handed the aggregate of the second pass, after the overlay when there is
  nothing at all to show. *)
Lemma before_data_processing_inv self self' l out :
run l self = (self', Ok out) →
∃ unique_data,
  first_pass repr_link (_publish_type_field self) l [] = Ok unique_data
  ∧ out = sg_item <$> dict_values unique_data
  ∧ calls self' =
      (calls self
        ++ (if decide (l = [] ∧ _treeview_folder_items self = [])
            then [_show_overlay_pixmap _no_pubs_found_icon] else [])
        ++ [set_active_types
              (foldl dict_incr [] (type_id <$> dict_values unique_data))])%list
  ∧ _publish_type_field self' = _publish_type_field self
  ∧ _treeview_folder_items self' = _treeview_folder_items self.
Proof.
unfold _before_data_processing, mbind, M_bind, gets, lift, do_call, modify; simpl.
destruct l as [|r l]; simpl.
- destruct (_treeview_folder_items self) as [|tv tvs] eqn:Htv; simpl.
  + intros [= <- <-]. exists []. simpl.
    by rewrite <- app_assoc.
  + by intros [= <- <-]; exists [].
- destruct (label_and_type_id repr_link _ r) as [[label tid]|e]; simpl; [|done].
  destruct (first_pass _ _ l _) as [d|e] eqn:Hfp; [|done].
  rewrite second_pass_spec. simpl.
  by intros [= <- <-]; exists d.
Qed.

(** On well-formed records the hook returns a list. *)
Lemma label_and_type_id_well_formed fld r :
well_formed fld r → ∃ label tid, label_and_type_id repr_link fld r = Ok (label, tid).
Proof.
intros [(v & Hv & Hkind) [name Hname]].
unfold label_and_type_id, getitem. rewrite Hv, Hname. simpl.
destruct Hkind as [->|[lnk ->]]; simpl; eauto.
Qed.

Lemma first_pass_well_formed fld l d :
Forall (well_formed fld) l → ∃ d', first_pass repr_link fld l d = Ok d'.
Proof.
intros Hwf. revert d. induction Hwf as [|r l Hr Hl IH]; intros d; simpl; [eauto|].
destruct (label_and_type_id_well_formed _ _ Hr) as (label & tid & ->). simpl.
apply IH.
Qed.

Lemma before_data_processing_returns self l :
Forall (well_formed (_publish_type_field self)) l →
∃ self' out, run l self = (self', Ok out).
Proof.
intros Hwf.
destruct (first_pass_well_formed _ _ [] Hwf) as [d Hd].
unfold _before_data_processing, mbind, M_bind, gets, lift, do_call, modify; simpl.
destruct (bool_decide (length l = 0%nat) && _); simpl; [eauto|].
rewrite Hd, second_pass_spec. simpl. eauto.
Qed.

Lemma coherent_nil fld : coherent repr_link fld [].
Proof. intros label e Hin. by apply elem_of_nil in Hin. Qed.

Lemma labelled_NoDup fld (out : list sg_dict) (labels : list string) :
Forall2 (λ r label, label_of repr_link fld r = Ok label) out labels →
NoDup labels → NoDup out.
Proof.
induction 1 as [|r label out labels Hr Hrest IH]; intros Hnd.
- apply NoDup_nil_2.
- apply NoDup_cons in Hnd as [Hnotin Hnd].
  apply NoDup_cons. split; [|by apply IH].
  intros Hin. apply Hnotin.
  apply list_elem_of_lookup in Hin as [i Hi].
  destruct (Forall2_lookup_l _ _ _ _ _ Hrest Hi) as (label' & Hi' & Hlab).
  assert (label' = label) as -> by congruence.
  by eapply list_elem_of_lookup_2.
Qed.

(** The returned records are, without repetition, the last records of the
  labels of the input. *)
Lemma returned_records self self' l out :
run l self = (self', Ok out) →
NoDup out ∧
∀ r, r ∈ out ↔
  ∃ label, last_with_label repr_link (_publish_type_field self) label l = Some r.
Proof.
intros (d & Hfp & -> & _)%before_data_processing_inv.
pose proof (first_pass_coherent _ _ _ _ _ (coherent_nil _) Hfp) as Hco.
pose proof (first_pass_NoDup _ _ _ _ _ (NoDup_nil_2 : NoDup (dict_keys [])) Hfp) as Hnd.
split.
- eapply labelled_NoDup; [by apply values_labels|done].
- intros r. split.
  + intros (e & -> & Hin)%list_elem_of_fmap.
    apply list_elem_of_fmap in Hin as ([k e'] & -> & Hin). simpl.
    exists k. rewrite <- (first_pass_lookup_nil _ _ _ _ k Hfp).
    by rewrite (dict_elem_get _ _ _ Hnd Hin).
  + intros [label Hlast].
    pose proof (first_pass_lookup_nil _ _ _ _ label Hfp) as Hget.
    rewrite Hlast in Hget.
    destruct (dict_get d label) as [e|] eqn:He; [|done].
    injection Hget as <-.
    apply list_elem_of_fmap. exists e. split; [done|].
    apply list_elem_of_fmap. exists (label, e). split; [done|].
    by apply dict_get_Some_elem.
Qed.

#[local] Instance version_le_refl : Reflexive version_le.
Proof. intros r. unfold version_le. destruct (version_number r); [lia|done]. Qed.




Lemma returned_labels_NoDup self self' l out :
  run l self = (self', Ok out) →
  ∃ labels,
    Forall2 (λ r label, label_of repr_link (_publish_type_field self) r = Ok label)
      out labels
    ∧ NoDup labels.
Proof.
  intros (d & Hfp & -> & _)%before_data_processing_inv.
  exists (dict_keys d). split.
  - apply values_labels.
    exact (first_pass_coherent _ _ _ _ _ (coherent_nil _) Hfp).
  - exact (first_pass_NoDup _ _ _ _ _ (NoDup_nil_2 : NoDup (dict_keys [])) Hfp).
Qed.

Lemma labelled_label_texts fld (out : list sg_dict) (labels : list string) :
  Forall2 (λ r label, label_of repr_link fld r = Ok label) out labels →
  label_text repr_link fld <$> out = Some <$> labels.
Proof.
  induction 1 as [|r label out labels Hr Hrest IH]; [done|].
  rewrite !fmap_cons, IH. f_equal. by apply label_of_label_text.
Qed.

(** C6: every returned record has a label, made of its name and the name of
    its publish type, and no two returned records have the same label; in
    particular no two of them are versions of one publish (the same name and
    the same publish type name). *)
Theorem returned_labels_distinct self self' l out :
  run l self = (self', Ok out) →
  Forall (λ r, is_Some (label_text repr_link (_publish_type_field self) r)) out
  ∧ NoDup (label_text repr_link (_publish_type_field self) <$> out)
  ∧ ∀ i j r r', out !! i = Some r → out !! j = Some r' →
      same_publish (_publish_type_field self) r r' → i = j.
Proof.
  intros (labels & Hlab & Hnd)%returned_labels_NoDup.
  pose proof (labelled_label_texts _ _ _ Hlab) as Htexts.
  assert (Hsome : Forall (λ r, is_Some (label_text repr_link (_publish_type_field self) r))
                    out).
  { clear Htexts Hnd. induction Hlab as [|r label out labels Hr Hrest IH]; constructor.
    - exists label. by apply label_of_label_text.
    - done. }
  assert (Hnd' : NoDup (label_text repr_link (_publish_type_field self) <$> out)).
  { rewrite Htexts. by apply (NoDup_fmap_2 Some). }
  split; [done|]. split; [done|].
  intros i j r r' Hi Hj Hsame.
  rewrite Forall_lookup in Hsome.
  apply (NoDup_lookup _ i j (label_text repr_link (_publish_type_field self) r) Hnd').
  - by rewrite list_lookup_fmap, Hi.
  - rewrite list_lookup_fmap, Hj. simpl. f_equal. symmetry.
    apply same_publish_label_text; eauto.
Qed.

(** C8: on an empty record list the hook returns the empty list and hands the
  empty mapping to [set_active_types], after the overlay when there are no
  folders either, and as its only call when there are folders. *)
Theorem empty_input_empty_result self :
(run [] self).2 = Ok []
∧ calls (run [] self).1 =
    (calls self ++
      (if decide (_treeview_folder_items self = [])
       then [_show_overlay_pixmap _no_pubs_found_icon; set_active_types []]
       else [set_active_types []]))%list.
Proof.
unfold _before_data_processing, mbind, M_bind, gets, lift, do_call, modify; simpl.
destruct (_treeview_folder_items self) as [|tv tvs]; simpl.
- split; [done|]. by rewrite <- app_assoc.
- done.
Qed.

Lemma aggregates_count_stored_type_ids self self' l out :
  ¬ (l = [] ∧ _treeview_folder_items self = []) →
  run l self = (self', Ok out) →
  ∃ type_id_aggregates,
    calls self' = (calls self ++ [set_active_types type_id_aggregates])%list
    ∧ NoDup (dict_keys type_id_aggregates)
    ∧ (∀ k, default 0%nat (dict_get type_id_aggregates k) =
            length (filter (λ r, type_id_of repr_link (_publish_type_field self) r = Ok k) out))
    ∧ sum_list (dict_values type_id_aggregates) = length out.
Proof.
  intros Hmain (d & Hfp & -> & Hcalls & _)%before_data_processing_inv.
  rewrite decide_False in Hcalls by done.
  eexists. split; [exact Hcalls|].
  pose proof (first_pass_coherent _ _ _ _ _ (coherent_nil _) Hfp) as Hco.
  split; [apply foldl_dict_incr_NoDup, NoDup_nil_2|].
  split.
  - intros k. rewrite foldl_dict_incr_get. simpl.
    symmetry. apply count_type_ids.
    intros e ([k' e'] & -> & Hin)%list_elem_of_fmap. simpl.
    eapply type_id_of_lat, Hco, Hin.
  - rewrite foldl_dict_incr_sum. simpl. by rewrite !length_fmap.
Qed.

(** For a returned record, the type id the first pass stored is the id of the
    publish type link of the record, [None] without a link. *)
Lemma returned_type_ids self self' l out r k :
  run l self = (self', Ok out) → r ∈ out →
  type_id_of repr_link (_publish_type_field self) r = Ok k
  ↔ publish_type_id (_publish_type_field self) r = k.
Proof.
  intros (labels & Hlab & _)%returned_labels_NoDup Hin.
  apply list_elem_of_lookup in Hin as [i Hi].
  destruct (Forall2_lookup_l _ _ _ _ _ Hlab Hi) as (label & _ & Hr).
  rewrite (type_id_of_publish_type_id _ _ _ _ Hr). split; congruence.
Qed.

(** C9: on the main path the mapping handed to [set_active_types] counts the
    returned records: every type id is mapped to the number of returned
    records whose publish type link has that id, with [None] standing for the
    records without a publish type link; every key occurs once, and the
    counts add up to the length of the returned list. *)
Theorem aggregates_count_returned_records self self' l out :
  ¬ (l = [] ∧ _treeview_folder_items self = []) →
  run l self = (self', Ok out) →
  ∃ type_id_aggregates,
    calls self' = (calls self ++ [set_active_types type_id_aggregates])%list
    ∧ NoDup (dict_keys type_id_aggregates)
    ∧ (∀ k, default 0%nat (dict_get type_id_aggregates k) =
            length (filter (λ r, publish_type_id (_publish_type_field self) r = k) out))
    ∧ sum_list (dict_values type_id_aggregates) = length out.
Proof.
  intros Hmain Hrun.
  destruct (aggregates_count_stored_type_ids _ _ _ _ Hmain Hrun)
    as (aggr & Hcalls & Hnd & Hcount & Hsum).
  exists aggr. split; [done|]. split; [done|]. split; [|done].
  intros k. rewrite Hcount. f_equal.
  apply filter_ext_in. intros r Hin. by eapply returned_type_ids.
Qed.
End BeforeDataProcessingFacts.

(** *** Instances on the sample records *)

Section SampleRuns.
Import Py Qt SgLatestPublishModel Spec Sample.

Local Abbreviation run := (_before_data_processing repr_link).


Example sample_aggregates :
calls (run [a_v1; a_v3; b_v1] latest_model).1 =
  [set_active_types [(VInt 7, 1%nat); (VNone, 1%nat)]].
Proof. vm_compute. reflexivity. Qed.

Example sample_labels :
label_of repr_link "published_file_type" <$> [a_v1; a_v3; b_v1] =
  [Ok "A, Maya Scene"; Ok "A, Maya Scene"; Ok "B, No Type"].
Proof. vm_compute. reflexivity. Qed.



Lemma sample_sorted_run :
run [a_v1; b_v1; a_v3] latest_model =
  ((run [a_v1; b_v1; a_v3] latest_model).1, Ok [a_v3; b_v1]).
Proof. vm_compute. reflexivity. Qed.


Lemma returned_labels_distinct_witness :
  Forall (λ r, is_Some (Behaviour.label_text repr_link "published_file_type" r))
    [a_v3; b_v1]
  ∧ NoDup (Behaviour.label_text repr_link "published_file_type" <$> [a_v3; b_v1])
  ∧ ∀ i j r r', [a_v3; b_v1] !! i = Some r → [a_v3; b_v1] !! j = Some r' →
      Behaviour.same_publish "published_file_type" r r' → i = j.
Proof.
  exact (returned_labels_distinct repr_link latest_model _ _ _ sample_sorted_run).
Defined.

Lemma sample_sorted_calls :
  calls (run [a_v1; b_v1; a_v3] latest_model).1 =
    [set_active_types [(VInt 7, 1%nat); (VNone, 1%nat)]].
Proof. vm_compute. reflexivity. Qed.

Lemma aggregates_count_returned_records_witness :
  calls (run [a_v1; b_v1; a_v3] latest_model).1 =
    [set_active_types [(VInt 7, 1%nat); (VNone, 1%nat)]]
  ∧ (∀ k, default 0%nat (dict_get [(VInt 7, 1%nat); (VNone, 1%nat)] k) =
          length (filter (λ r, Behaviour.publish_type_id "published_file_type" r = k)
                    [a_v3; b_v1]))
  ∧ sum_list (dict_values [(VInt 7, 1%nat); (VNone, 1%nat)]) = length [a_v3; b_v1].
Proof.
  destruct (aggregates_count_returned_records repr_link latest_model
              (run [a_v1; b_v1; a_v3] latest_model).1 [a_v1; b_v1; a_v3] [a_v3; b_v1])
    as (aggr & Hcalls & _ & Hcount & Hsum).
  - intros [Hnil _]. discriminate Hnil.
  - exact sample_sorted_run.
  - rewrite sample_sorted_calls in Hcalls. simpl in Hcalls.
    injection Hcalls as <-. split; [exact sample_sorted_calls|]. by split.
Defined.




End SampleRuns.

(** ** [SgLatestPublishModel._load_external_data] and [_populate_item] *)

Section FolderItems.
Import Py Qt SgLatestPublishModel.
Variable SG_DATA_ROLE : Z.

Lemma load_external_item_spec tv self :
∃ cs,
  load_external_item SG_DATA_ROLE tv self =
    ({| _publish_type_field := _publish_type_field self;
        _treeview_folder_items := _treeview_folder_items self;
        _folder_items := (_folder_items self ++ [folder_item SG_DATA_ROLE tv])%list;
        rows := (rows self ++ [folder_item SG_DATA_ROLE tv])%list;
        calls := (calls self ++ cs)%list |}, Ok tt).
Proof.
unfold load_external_item, mbind, M_bind, appendRow, append_folder_item,
  do_call, modify, lift.
destruct (tv_sg_data tv) as [d|]; simpl.
- destruct (truthy (get d "image")) eqn:Himg; simpl.
  + unfold get in Himg. unfold getitem at 1.
    destruct (lookup_field d "image") as [v|]; [|done]. simpl.
    by eexists [_].
  + exists []. by rewrite app_nil_r.
- exists []. by rewrite app_nil_r.
Qed.

Lemma load_external_loop tvs self :
∃ cs,
  for_ tvs (load_external_item SG_DATA_ROLE) self =
    ({| _publish_type_field := _publish_type_field self;
        _treeview_folder_items := _treeview_folder_items self;
        _folder_items := (_folder_items self ++ (folder_item SG_DATA_ROLE <$> tvs))%list;
        rows := (rows self ++ (folder_item SG_DATA_ROLE <$> tvs))%list;
        calls := (calls self ++ cs)%list |}, Ok tt).
Proof.
revert self. induction tvs as [|tv tvs IH]; intros self; simpl.
- exists []. rewrite !app_nil_r. by destruct self.
- destruct (load_external_item_spec tv self) as [cs Hitem].
  unfold mbind, M_bind at 1. rewrite Hitem.
  destruct (IH {| _publish_type_field := _publish_type_field self;
        _treeview_folder_items := _treeview_folder_items self;
        _folder_items := (_folder_items self ++ [folder_item SG_DATA_ROLE tv])%list;
        rows := (rows self ++ [folder_item SG_DATA_ROLE tv])%list;
        calls := (calls self ++ cs)%list |}) as [cs' ->].
  exists (cs ++ cs')%list. simpl. by rewrite <- !app_assoc.
Qed.

Lemma folder_item_roles tv :
SG_DATA_ROLE ≠ TYPE_ID_ROLE →
SG_DATA_ROLE ≠ IS_FOLDER_ROLE →
SG_DATA_ROLE ≠ ASSOCIATED_TREE_VIEW_ITEM_ROLE →
text (folder_item SG_DATA_ROLE tv) = tv_text tv
∧ data (folder_item SG_DATA_ROLE tv) IS_FOLDER_ROLE = QBool true
∧ data (folder_item SG_DATA_ROLE tv) TYPE_ID_ROLE = QNone
∧ data (folder_item SG_DATA_ROLE tv) ASSOCIATED_TREE_VIEW_ITEM_ROLE = QTreeItem tv.
Proof.
intros H1 H2 H3. unfold folder_item, data, setData; simpl.
split; [done|].
rewrite !(lookup_insert_ne _ SG_DATA_ROLE) by done.
split; [|split].
- rewrite lookup_insert_ne by done. by rewrite lookup_insert_eq.
- rewrite !lookup_insert_ne by done. by rewrite lookup_insert_eq.
- by rewrite lookup_insert_eq.
Qed.

Lemma populate_item_is_folder self sg_data item :
data (_populate_item self sg_data item).1 IS_FOLDER_ROLE = QBool false.
Proof.
unfold _populate_item, mbind, M_bind, modify, lift; simpl.
destruct (truthy _); simpl.
- destruct (subscript _ _); simpl.
  + unfold data, setData; simpl.
    rewrite lookup_insert_ne by done. by rewrite lookup_insert_eq.
  + unfold data; simpl. by rewrite lookup_insert_eq.
- unfold data, setData; simpl.
  rewrite lookup_insert_ne by done. by rewrite lookup_insert_eq.
Qed.

(** C10: [_load_external_data] appends one row per folder of the tree view,
  in the order of the list, each a folder item ([IS_FOLDER_ROLE] is [True],
  [TYPE_ID_ROLE] is [None]) that points back to its tree view item, and
  [_populate_item] marks every record-backed item as not a folder. The role
  of the base class must not be one of the three roles of this model. *)
Theorem folder_role_partitions_items self :
SG_DATA_ROLE ≠ TYPE_ID_ROLE →
SG_DATA_ROLE ≠ IS_FOLDER_ROLE →
SG_DATA_ROLE ≠ ASSOCIATED_TREE_VIEW_ITEM_ROLE →
(_load_external_data SG_DATA_ROLE self).2 = Ok tt
∧ (∃ new,
    rows (_load_external_data SG_DATA_ROLE self).1 = (rows self ++ new)%list
    ∧ Forall2 (λ tv item,
         text item = tv_text tv
         ∧ data item IS_FOLDER_ROLE = QBool true
         ∧ data item TYPE_ID_ROLE = QNone
         ∧ data item ASSOCIATED_TREE_VIEW_ITEM_ROLE = QTreeItem tv)
        (_treeview_folder_items self) new)
∧ ∀ sg_data item,
    data (_populate_item self sg_data item).1 IS_FOLDER_ROLE = QBool false.
Proof.
intros H1 H2 H3.
unfold _load_external_data, mbind, M_bind, set_folder_items, modify, gets; simpl.
match goal with
| |- context [for_ ?tvs _ ?s] => destruct (load_external_loop tvs s) as [cs ->]
end.
simpl. split; [done|]. split; [|apply populate_item_is_folder].
eexists. split; [done|].
induction (_treeview_folder_items self) as [|tv tvs IH]; constructor; [|done].
by apply folder_item_roles.
Qed.
End FolderItems.

Lemma folder_role_partitions_items_witness :
  let SG_DATA_ROLE := Qt.UserRole + 1 in
  let self := Sample.latest_model_with_folders in
  (SgLatestPublishModel._load_external_data SG_DATA_ROLE self).2 = Py.Ok tt
  ∧ (∃ new,
      SgLatestPublishModel.rows (SgLatestPublishModel._load_external_data SG_DATA_ROLE self).1
        = (SgLatestPublishModel.rows self ++ new)%list
      ∧ Forall2 (λ tv item,
           Qt.text item = Qt.tv_text tv
           ∧ Qt.data item SgLatestPublishModel.IS_FOLDER_ROLE = Qt.QBool true
           ∧ Qt.data item SgLatestPublishModel.TYPE_ID_ROLE = Qt.QNone
           ∧ Qt.data item SgLatestPublishModel.ASSOCIATED_TREE_VIEW_ITEM_ROLE = Qt.QTreeItem tv)
          (SgLatestPublishModel._treeview_folder_items self) new)
  ∧ ∀ sg_data item,
      Qt.data (SgLatestPublishModel._populate_item self sg_data item).1
        SgLatestPublishModel.IS_FOLDER_ROLE = Qt.QBool false.
Proof.
  apply (folder_role_partitions_items (Qt.UserRole + 1) Sample.latest_model_with_folders);
    vm_compute; discriminate.
Defined.

(** ** The group-by filters of [SgPublishHistoryModel.load_data] *)

Section GroupByFilters.
Import Py Qt SgPublishHistoryModel.

Lemma group_by_filters_ok sg_data group_by_fields filters :
  Forall (λ field, is_Some (lookup_field sg_data field)) group_by_fields →
  group_by_filters sg_data group_by_fields filters =
    Ok (filters ++ ((λ field, (field, "is", get sg_data field)) <$> group_by_fields))%list.
Proof.
  intros Hall. revert filters.
  induction Hall as [|field rest [v Hv] Hrest IH]; intros filters; simpl.
  - by rewrite app_nil_r.
  - unfold getitem, get. rewrite Hv. simpl. rewrite IH.
    by rewrite <- app_assoc.
Qed.

Lemma group_by_filters_missing sg_data before field after filters :
  Forall (λ field, is_Some (lookup_field sg_data field)) before →
  lookup_field sg_data field = None →
  group_by_filters sg_data (before ++ field :: after) filters = Raise (KeyError field).
Proof.
  intros Hall Hnone. revert filters.
  induction Hall as [|field' rest [v Hv] Hrest IH]; intros filters; simpl.
  - unfold getitem. by rewrite Hnone.
  - unfold getitem. rewrite Hv. simpl. apply IH.
Qed.
End GroupByFilters.

(** ** [load_data] of both models *)

Section LoadData.
Import Py Qt.

Lemma history_load_data_calls PUBLISHED_FILES_FIELDS app sg_data self :
match SgPublishHistoryModel.load_data PUBLISHED_FILES_FIELDS app sg_data self with
| (self', Ok _) =>
    ∃ filters rest,
      SgPublishHistoryModel.calls self' =
        (SgPublishHistoryModel.calls self ++
          [SgPublishHistoryModel.ShotgunModel__load_data
             (SgPublishHistoryModel.published_file_entity_type app) filters
             ["version_number"]
             ((if decide (SgPublishHistoryModel.published_file_entity_type app
                          = "PublishedFile")
               then "published_file_type" else "tank_type") :: rest);
           SgPublishHistoryModel._refresh_data])%list
| (self', Raise _) =>
    SgPublishHistoryModel.calls self' = SgPublishHistoryModel.calls self
end.
Proof.
unfold SgPublishHistoryModel.load_data, mbind, M_bind, lift,
  SgPublishHistoryModel.do_call, modify.
destruct (SgPublishHistoryModel.group_by_filters _ _ _) as [filters|e]; simpl; [|done].
eexists _, _. by rewrite <- app_assoc.
Qed.

Lemma latest_load_data_calls publish_entity_type sg_entity_link folders self :
let field := if decide (publish_entity_type = "PublishedFile")
             then "published_file_type" else "tank_type" in
SgLatestPublishModel.load_data publish_entity_type sg_entity_link folders self =
  ({| SgLatestPublishModel._publish_type_field := field;
      SgLatestPublishModel._treeview_folder_items := folders;
      SgLatestPublishModel._folder_items := SgLatestPublishModel._folder_items self;
      SgLatestPublishModel.rows := SgLatestPublishModel.rows self;
      SgLatestPublishModel.calls :=
        (SgLatestPublishModel.calls self ++
          [SgLatestPublishModel.ShotgunModel_load_data publish_entity_type
             (if truthy sg_entity_link
              then Some [("entity", "is", sg_entity_link)] else None)
             ["code"]
             ["name"; "entity"; "version_number"; "image"; field]
             [("version_number", "asc")]])%list |}, Ok tt).
Proof.
unfold SgLatestPublishModel.load_data, mbind, M_bind, gets,
  SgLatestPublishModel.set_publish_type_field,
  SgLatestPublishModel.set_treeview_folder_items,
  SgLatestPublishModel.do_call, modify.
by destruct (decide (publish_entity_type = "PublishedFile")).
Qed.

(** C3, as the code has it: [SgPublishHistoryModel.load_data] loads the
  cached data and triggers the refresh right after it, in the same call (it
  makes neither call when a group-by field is missing from the publish);
  [SgLatestPublishModel.load_data] loads the cached data and makes no other
  call, the refresh being left to its caller. *)
Theorem refresh_follows_load_in_history_model :
(∀ PUBLISHED_FILES_FIELDS app sg_data self,
   match SgPublishHistoryModel.load_data PUBLISHED_FILES_FIELDS app sg_data self with
   | (self', Ok _) =>
       ∃ entity_type filters hierarchy fields,
         SgPublishHistoryModel.calls self' =
           (SgPublishHistoryModel.calls self ++
             [SgPublishHistoryModel.ShotgunModel__load_data
                entity_type filters hierarchy fields;
              SgPublishHistoryModel._refresh_data])%list
   | (self', Raise _) =>
       SgPublishHistoryModel.calls self' = SgPublishHistoryModel.calls self
   end)
∧ (∀ publish_entity_type sg_entity_link folders self,
     (SgLatestPublishModel.load_data publish_entity_type sg_entity_link folders self).2
       = Ok tt
     ∧ ∃ entity_type filters hierarchy fields order,
         SgLatestPublishModel.calls
           (SgLatestPublishModel.load_data publish_entity_type sg_entity_link
              folders self).1 =
           (SgLatestPublishModel.calls self ++
             [SgLatestPublishModel.ShotgunModel_load_data
                entity_type filters hierarchy fields order])%list).
Proof.
split.
- intros PFF app sg_data self.
  pose proof (history_load_data_calls PFF app sg_data self) as H.
  destruct (SgPublishHistoryModel.load_data PFF app sg_data self) as [self' [[]|e]];
    [|done].
  destruct H as (filters & rest & ->). by eexists _, _, _, _.
- intros et link folders self. rewrite latest_load_data_calls. simpl.
  split; [done|]. by eexists _, _, _, _, _.
Qed.

(** C3 fails on [SgLatestPublishModel.load_data]: the call loads the cached
  data and returns without a refresh. *)
Lemma latest_load_data_without_refresh :
SgLatestPublishModel.calls
  (SgLatestPublishModel.load_data "PublishedFile" Sample.maya_scene [] Sample.latest_model).1
= [SgLatestPublishModel.ShotgunModel_load_data "PublishedFile"
     (Some [("entity", "is", Sample.maya_scene)]) ["code"]
     ["name"; "entity"; "version_number"; "image"; "published_file_type"]
     [("version_number", "asc")]]
∧ SgLatestPublishModel.refresh_data ∉
    SgLatestPublishModel.calls
      (SgLatestPublishModel.load_data "PublishedFile" Sample.maya_scene []
         Sample.latest_model).1.
Proof.
split; [vm_compute; reflexivity|].
rewrite latest_load_data_calls. simpl.
intros Hin. apply list_elem_of_singleton in Hin. discriminate Hin.
Qed.


End LoadData.

(** ** [SgPublishHistoryModel._populate_thumbnail_image] *)

Section Thumbnails.
Import Py Qt SgPublishHistoryModel.
Variable get_thumbnail_field_for_item : QStandardItem → bool → option string.

Local Abbreviation deliver := (_populate_thumbnail_image get_thumbnail_field_for_item).

Lemma data_setIcon p item role : data (setIcon p item) role = data item role.
Proof. done. Qed.

Lemma data_setData_eq v item role : data (setData v role item) role = v.
Proof. unfold data, setData; simpl. by rewrite lookup_insert_eq. Qed.

Lemma data_setData_ne v item role role' :
role ≠ role' → data (setData v role item) role' = data item role'.
Proof. intros Hne. unfold data, setData; simpl. by rewrite lookup_insert_ne. Qed.

(** C4: a delivery changes the publish thumbnail datum only when its field is
  the image field expected for the item, changes the user thumbnail datum
  only when its field is ["created_by.HumanUser.image"], and leaves both
  data as they are when its field is neither. *)
Theorem thumbnail_matched_by_field self field image path item :
(data (deliver self field image path item).1 PUBLISH_THUMB_ROLE
   ≠ data item PUBLISH_THUMB_ROLE →
 get_thumbnail_field_for_item item (_use_version_thumbnail_as_fallback self)
   = Some field)
∧ (data (deliver self field image path item).1 USER_THUMB_ROLE
     ≠ data item USER_THUMB_ROLE →
   field = "created_by.HumanUser.image")
∧ (get_thumbnail_field_for_item item (_use_version_thumbnail_as_fallback self)
     ≠ Some field →
   field ≠ "created_by.HumanUser.image" →
   data (deliver self field image path item).1 PUBLISH_THUMB_ROLE
     = data item PUBLISH_THUMB_ROLE
   ∧ data (deliver self field image path item).1 USER_THUMB_ROLE
       = data item USER_THUMB_ROLE).
Proof.
unfold _populate_thumbnail_image, mbind, M_bind, gets, modify; simpl.
destruct (truthy _ && bool_decide (Some field = _)) eqn:Hpub; simpl.
- apply andb_true_iff in Hpub as [_ Hpub%bool_decide_eq_true].
  rewrite !data_setIcon.
  rewrite (data_setData_ne _ _ PUBLISH_THUMB_ROLE USER_THUMB_ROLE) by done.
  split; [done|]. split; [done|]. by intros Hne.
- destruct (bool_decide (field = "created_by.HumanUser.image")) eqn:Huser; simpl.
  + apply bool_decide_eq_true in Huser.
    rewrite !data_setIcon.
    rewrite (data_setData_ne _ _ USER_THUMB_ROLE PUBLISH_THUMB_ROLE) by done.
    split; [done|]. split; [done|]. by intros _ Hne.
  + rewrite !data_setIcon. done.
Qed.
End Thumbnails.

Lemma thumbnail_matched_by_field_witness :
  Qt.data (SgPublishHistoryModel._populate_thumbnail_image Sample.thumbnail_field
             Sample.history_model "version.Version.image" "jpeg" "/tmp/thumb.jpg"
             Sample.blank_item).1 SgPublishHistoryModel.PUBLISH_THUMB_ROLE
    = Qt.data Sample.blank_item SgPublishHistoryModel.PUBLISH_THUMB_ROLE
  ∧ Qt.data (SgPublishHistoryModel._populate_thumbnail_image Sample.thumbnail_field
               Sample.history_model "version.Version.image" "jpeg" "/tmp/thumb.jpg"
               Sample.blank_item).1 SgPublishHistoryModel.USER_THUMB_ROLE
      = Qt.data Sample.blank_item SgPublishHistoryModel.USER_THUMB_ROLE.
Proof.
  apply (thumbnail_matched_by_field Sample.thumbnail_field Sample.history_model
           "version.Version.image" "jpeg" "/tmp/thumb.jpg" Sample.blank_item);
    vm_compute; discriminate.
Defined.

(** ** Further instances *)

Section MoreSampleRuns.
Import Py Qt Sample.

(** A publish whose label is built from a missing name raises. *)
Example nameless_publish_raises :
  (SgLatestPublishModel._before_data_processing repr_link
     [SgDict "PublishedFile" 9 (<["published_file_type" := VNone]> ∅)] latest_model).2
  = Raise (KeyError "name").
Proof. vm_compute. reflexivity. Qed.

(** Two different (name, type name) pairs can meet in one label. *)
Example labels_can_collide :
  Spec.label_of repr_link "published_file_type"
    (publish 4 "A, B" 1 (VLink (EntityLink "PublishedFileType" 8 (Some "C"))))
  = Spec.label_of repr_link "published_file_type"
      (publish 5 "A" 1 (VLink (EntityLink "PublishedFileType" 9 (Some "B, C")))).
Proof. vm_compute. reflexivity. Qed.

Example history_load_data_sample :
  SgPublishHistoryModel.calls
    (SgPublishHistoryModel.load_data ["name"; "version_number"] app a_v1 history_model).1
  = [SgPublishHistoryModel.ShotgunModel__load_data "PublishedFile"
       [("name", "is", VStr "A")] ["version_number"]
       ["published_file_type"; "name"; "version_number"];
     SgPublishHistoryModel._refresh_data].
Proof. vm_compute. reflexivity. Qed.

Example history_load_data_missing_group_field :
  SgPublishHistoryModel.load_data []
    (SgPublishHistoryModel.Bundle "PublishedFile" None (Some ["task"]) None)
    a_v1 history_model
  = (history_model, Raise (KeyError "task")).
Proof. vm_compute. reflexivity. Qed.

Example thumbnail_for_expected_field :
  data (SgPublishHistoryModel._populate_thumbnail_image thumbnail_field history_model
          "image" "jpeg" "/tmp/thumb.jpg" blank_item).1
    SgPublishHistoryModel.PUBLISH_THUMB_ROLE
  = QPix (fromImage "jpeg").
Proof. vm_compute. reflexivity. Qed.

Example folder_rows_sample :
  text <$> SgLatestPublishModel.rows
             (SgLatestPublishModel._load_external_data (UserRole + 1)
                latest_model_with_folders).1
  = ["shot_010"; "Assets"].
Proof. vm_compute. reflexivity. Qed.

End MoreSampleRuns.

(** * Further properties *)

(** ** More on [SgLatestPublishModel._before_data_processing] *)

Section BeforeDataProcessingMore.
Import Py Qt SgLatestPublishModel Spec Behaviour.
Variable repr_link : entity_link → string.

Local Abbreviation run := (_before_data_processing repr_link).
Local Abbreviation lat := (label_and_type_id repr_link).

Lemma dict_set_fresh {K V} `{EqDecision K} (d : dict K V) k v :
  k ∉ dict_keys d → dict_set d k v = (d ++ [(k, v)])%list.
Proof.
  unfold dict_keys. induction d as [|[k0 v0] d IH]; simpl; intros Hk; [done|].
  apply not_elem_of_cons in Hk as [Hne Hk].
  rewrite decide_False by done. by rewrite IH.
Qed.

(** With pairwise distinct labels the first pass only appends. *)
Lemma first_pass_distinct fld l labels d :
  Forall2 (λ r label, label_of repr_link fld r = Ok label) l labels →
  NoDup labels →
  (∀ label, label ∈ labels → label ∉ dict_keys d) →
  ∃ es, first_pass repr_link fld l d = Ok (d ++ es)%list
        ∧ sg_item <$> dict_values es = l.
Proof.
  intros Hlab. revert d.
  induction Hlab as [|r label l labels Hr Hrest IH]; intros d Hnd Hfresh.
  - exists []. by rewrite app_nil_r.
  - apply NoDup_cons in Hnd as [Hnotin Hnd].
    apply label_of_Ok in Hr as [tid Hr]. simpl. rewrite Hr. simpl.
    rewrite dict_set_fresh by (apply Hfresh, list_elem_of_here).
    destruct (IH (d ++ [(label, Entry r tid)])%list Hnd) as (es & -> & Hes).
    { intros label' Hin. unfold dict_keys. rewrite fmap_app, elem_of_app.
      intros [Hd|Hl].
      - by apply (Hfresh label'); [apply list_elem_of_further|].
      - apply list_elem_of_singleton in Hl. simpl in Hl. by subst. }
    exists ((label, Entry r tid) :: es). split.
    + by rewrite <- app_assoc.
    + simpl. by rewrite <- Hes.
Qed.

Lemma before_data_processing_of_first_pass self l d :
  first_pass repr_link (_publish_type_field self) l [] = Ok d →
  ∃ self', run l self = (self', Ok (sg_item <$> dict_values d))
           ∧ _publish_type_field self' = _publish_type_field self
           ∧ _treeview_folder_items self' = _treeview_folder_items self.
Proof.
  intros Hd.
  unfold _before_data_processing, mbind, M_bind, gets, lift, do_call, modify; simpl.
  destruct l as [|r l]; simpl.
  - injection Hd as <-.
    destruct (_treeview_folder_items self) eqn:Htv; simpl; eauto.
  - simpl in Hd.
    destruct (label_and_type_id repr_link _ r) as [[label tid]|e]; simpl in *; [|done].
    rewrite Hd, second_pass_spec. simpl. eauto.
Qed.

(** X1: the hook returns records of its input only, and never more of them
    than it was given. *)
Theorem returned_records_come_from_input self self' l out :
  _before_data_processing repr_link l self = (self', Ok out) →
  (∀ r, r ∈ out → r ∈ l) ∧ (length out ≤ length l)%nat.
Proof.
  intros [Hnd Hin]%returned_records.
  assert (Hsub : ∀ r, r ∈ out → r ∈ l).
  { intros r [label Hlast]%Hin. by eapply last_with_label_Some. }
  split; [done|].
  by apply submseteq_length, NoDup_submseteq.
Qed.

(** Records with pairwise distinct label texts, by the labels of the first
    pass. *)
Lemma distinct_label_texts fld l labels :
  Forall2 (λ r label, label_text repr_link fld r = Some label) l labels →
  Forall2 (λ r label, label_of repr_link fld r = Ok label) l labels.
Proof.
  intros Hlab. eapply Forall2_impl; [exact Hlab|].
  intros r label. apply label_of_label_text.
Qed.

(** X2: records whose labels (name and publish type name) are pairwise
    distinct are all returned: the result is the input, up to the order of
    the list. *)
Theorem distinct_labels_all_returned self l labels :
  Forall2 (λ r label, label_text repr_link (_publish_type_field self) r = Some label)
    l labels →
  NoDup labels →
  ∃ self' out, _before_data_processing repr_link l self = (self', Ok out) ∧ out ≡ₚ l.
Proof.
  intros Hlab%distinct_label_texts Hnd.
  destruct (first_pass_distinct _ _ _ [] Hlab Hnd) as (es & Hfp & Hes).
  { intros label _ Hin. by apply elem_of_nil in Hin. }
  destruct (before_data_processing_of_first_pass self l es Hfp) as (self' & Hrun & _).
  exists self', l. by rewrite Hrun, Hes.
Qed.

(** The label of a record that has one. *)
Lemma labels_of_list fld (l : list sg_dict) labels :
  Forall2 (λ r label, label_of repr_link fld r = Ok label) l labels →
  Forall (λ r, ∃ label, label_of repr_link fld r = Ok label) l
  ∧ labels = (λ r, match label_of repr_link fld r with
                    | Ok label => label
                    | Raise _ => ""
                    end) <$> l.
Proof.
  induction 1 as [|r label l labels Hr Hrest [IH1 IH2]]; [done|].
  split; [constructor; eauto|]. rewrite fmap_cons, Hr. by f_equal.
Qed.

Lemma list_of_labels fld (l : list sg_dict) :
  Forall (λ r, ∃ label, label_of repr_link fld r = Ok label) l →
  Forall2 (λ r label, label_of repr_link fld r = Ok label) l
    ((λ r, match label_of repr_link fld r with
           | Ok label => label
           | Raise _ => ""
           end) <$> l).
Proof.
  induction 1 as [|r l [label Hr] Hrest IH]; [constructor|].
  rewrite fmap_cons. constructor; [by rewrite Hr|done].
Qed.

(** X3: the hook is idempotent: given the records it returned, in any order,
    it returns all of them again and nothing else. *)
Theorem before_data_processing_idempotent self self' l out :
  _before_data_processing repr_link l self = (self', Ok out) →
  ∀ again, again ≡ₚ out →
    ∃ self'' out',
      _before_data_processing repr_link again self' = (self'', Ok out')
      ∧ out' ≡ₚ out.
Proof.
  intros (d & Hfp & -> & _ & Hfld & _)%before_data_processing_inv again Hperm.
  pose proof (first_pass_coherent _ _ _ _ _ (coherent_nil _ _) Hfp) as Hco.
  pose proof (first_pass_NoDup _ _ _ _ _ (NoDup_nil_2 : NoDup (dict_keys [])) Hfp) as Hnd.
  apply values_labels in Hco. rewrite <- Hfld in Hco.
  apply labels_of_list in Hco as [Hall Hkeys]. rewrite Hkeys in Hnd.
  rewrite <- Hperm in Hall, Hnd.
  apply list_of_labels in Hall.
  destruct (first_pass_distinct _ _ _ [] Hall Hnd) as (es & Hfp' & Hes).
  { intros label _ Hin. by apply elem_of_nil in Hin. }
  destruct (before_data_processing_of_first_pass self' _ es Hfp') as (self'' & Hrun & _).
  exists self'', again. by rewrite Hrun, Hes.
Qed.

Lemma first_pass_raise fld l d e :
  first_pass repr_link fld l d = Raise e →
  ∃ l1 r l2, l = (l1 ++ r :: l2)%list
    ∧ Forall (λ r', ∃ label, label_of repr_link fld r' = Ok label) l1
    ∧ lat fld r = Raise e.
Proof.
  revert d. induction l as [|r l IH]; intros d; simpl; [done|].
  destruct (lat fld r) as [[label tid]|e'] eqn:Hr; simpl.
  - intros (l1 & r' & l2 & -> & Hl1 & Hr')%IH.
    exists (r :: l1), r', l2. split; [done|]. split; [|done].
    constructor; [|done]. exists label. by eapply label_of_lat.
  - intros [= ->]. by exists [], r, l.
Qed.

(** X4: when the hook raises, the exception is the one of the first record
    that cannot be labelled, the model is left as it was and nothing has been
    handed to the publish type model. *)
Theorem raise_leaves_model_untouched self self' l e :
  run l self = (self', Raise e) →
  self' = self
  ∧ ∃ l1 r l2, l = (l1 ++ r :: l2)%list
      ∧ Forall (λ r', ∃ label,
                  label_of repr_link (_publish_type_field self) r' = Ok label) l1
      ∧ lat (_publish_type_field self) r = Raise e.
Proof.
  unfold _before_data_processing, mbind, M_bind, gets, lift, do_call, modify; simpl.
  destruct l as [|r l]; simpl.
  - by destruct (_treeview_folder_items self).
  - destruct (lat (_publish_type_field self) r) as [[label tid]|e'] eqn:Hr; simpl.
    + destruct (first_pass _ _ l _) as [d|e'] eqn:Hfp; simpl.
      * rewrite second_pass_spec. done.
      * intros [= <- <-]. split; [done|].
        apply (first_pass_raise _ (r :: l) []). simpl. by rewrite Hr.
    + intros [= <- <-]. split; [done|]. by exists [], r, l.
Qed.

Lemma label_of_labelable fld r :
  (∃ label, label_of repr_link fld r = Ok label) ↔ labelable fld r.
Proof.
  unfold Spec.label_of, label_and_type_id, labelable, getitem. split.
  - intros [label Hlab].
    destruct (lookup_field r fld) as [v|]; simpl in Hlab; [|done].
    destruct (truthy v) eqn:Hv; simpl in Hlab.
    + destruct v as [|n|s|lnk]; simpl in Hlab; try done.
      destruct (lookup_field r "name"); [|done]. eauto 6.
    + destruct (lookup_field r "name"); [|done]. eauto 6.
  - intros [[name ->] (v & -> & Hv)]. simpl.
    destruct Hv as [->|[lnk ->]]; simpl; eauto.
Qed.

(** X5: the hook returns a list exactly when every record has a name and
    carries the publish type field with a link or a falsy value in it. *)
Theorem returns_iff_all_labelable self l :
  (∃ self' out, run l self = (self', Ok out))
  ↔ Forall (labelable (_publish_type_field self)) l.
Proof.
  split.
  - intros (self' & out & (d & Hfp & _)%before_data_processing_inv).
    apply first_pass_labelled in Hfp.
    eapply Forall_impl; [exact Hfp|]. intros r Hr. by apply label_of_labelable.
  - intros Hall.
    assert (∀ d, ∃ d', first_pass repr_link (_publish_type_field self) l d = Ok d')
      as Hfp.
    { induction Hall as [|r l Hr Hl IH]; intros d; simpl; [eauto|].
      apply label_of_labelable in Hr as [label [tid ->]%label_of_Ok]. simpl.
      apply IH. }
    destruct (Hfp []) as [d Hd].
    destruct (before_data_processing_of_first_pass self l d Hd) as (self' & Hrun & _).
    eauto.
Qed.

Lemma elem_of_keys_foldl_dict_incr {K} `{EqDecision K} (ks : list K) (a : dict K nat) k :
  k ∈ dict_keys (foldl dict_incr a ks) ↔ k ∈ dict_keys a ∨ k ∈ ks.
Proof.
  revert a. induction ks as [|k0 ks IH]; intros a; simpl.
  - rewrite elem_of_nil. naive_solver.
  - rewrite IH. unfold dict_incr. rewrite elem_of_dict_keys_set, elem_of_cons.
    naive_solver.
Qed.

Lemma foldl_dict_incr_positive {K} `{EqDecision K} (ks : list K) (a : dict K nat) :
  (∀ k c, dict_get a k = Some c → (0 < c)%nat) →
  ∀ k c, dict_get (foldl dict_incr a ks) k = Some c → (0 < c)%nat.
Proof.
  revert a. induction ks as [|k0 ks IH]; intros a Ha; simpl; [done|].
  apply IH. intros k c. unfold dict_incr. rewrite dict_get_set.
  destruct (decide (k0 = k)); [intros [= <-]; lia|apply Ha].
Qed.

(** X6: the keys of the mapping handed to [set_active_types] are the ids of
    the publish type links of the returned records, with [None] for a record
    without such a link (none is missing, none is extra), and no key is
    mapped to zero. *)
Theorem active_types_are_returned_types self self' l out :
  run l self = (self', Ok out) →
  ∃ before type_id_aggregates,
    calls self' = (before ++ [set_active_types type_id_aggregates])%list
    ∧ (∀ k, k ∈ dict_keys type_id_aggregates ↔
            ∃ r, r ∈ out ∧ publish_type_id (_publish_type_field self) r = k)
    ∧ (∀ k c, dict_get type_id_aggregates k = Some c → (0 < c)%nat).
Proof.
  intros Hrun.
  pose proof Hrun as (d & Hfp & Hout & Hcalls & _)%before_data_processing_inv.
  pose proof (first_pass_coherent _ _ _ _ _ (coherent_nil _ _) Hfp) as Hco.
  eexists _, _. split; [by rewrite Hcalls, app_assoc|]. split.
  - intros k. rewrite elem_of_keys_foldl_dict_incr. split.
    + intros [Hnil|Hin]; [by apply elem_of_nil in Hnil|].
      apply list_elem_of_fmap in Hin as (e & -> & Hin).
      assert (Hr : sg_item e ∈ out) by (rewrite Hout; by apply list_elem_of_fmap_2).
      exists (sg_item e). split; [done|].
      apply (returned_type_ids _ _ _ _ _ _ _ Hrun Hr).
      apply list_elem_of_fmap in Hin as ([k' e'] & -> & Hin). simpl.
      eapply type_id_of_lat, Hco, Hin.
    + intros (r & Hin & Hk). right.
      apply (returned_type_ids _ _ _ _ _ _ _ Hrun Hin) in Hk.
      rewrite Hout in Hin.
      apply list_elem_of_fmap in Hin as (e & -> & Hin).
      pose proof Hin as Hin'.
      apply list_elem_of_fmap in Hin' as ([k' e'] & -> & Hin'). simpl in *.
      rewrite (type_id_of_lat _ _ _ _ _ (Hco _ _ Hin')) in Hk.
      injection Hk as <-. by apply (list_elem_of_fmap_2 type_id) in Hin.
  - apply foldl_dict_incr_positive. done.
Qed.

(** X7: a publish without a type and a publish whose type is named
    ["No Type"] get the same label when they share a name: delivered one
    after the other, only the second is returned. *)
Theorem untyped_collides_with_no_type self r1 r2 name v lnk :
  lookup_field r1 "name" = Some name →
  lookup_field r2 "name" = Some name →
  lookup_field r1 (_publish_type_field self) = Some v →
  truthy v = false →
  lookup_field r2 (_publish_type_field self) = Some (VLink lnk) →
  link_name lnk = Some "No Type" →
  label_of repr_link (_publish_type_field self) r1
    = label_of repr_link (_publish_type_field self) r2
  ∧ ∃ self', run [r1; r2] self = (self', Ok [r2]).
Proof.
  intros Hn1 Hn2 Hv Hfalsy Hl Hname.
  assert (H1 : lat (_publish_type_field self) r1
               = Ok (str repr_link name ++ ", No Type", VNone)).
  { unfold label_and_type_id, getitem. rewrite Hv, Hn1. simpl. by rewrite Hfalsy. }
  assert (H2 : lat (_publish_type_field self) r2
               = Ok (str repr_link name ++ ", No Type", VInt (link_id lnk))).
  { unfold label_and_type_id, getitem. rewrite Hl, Hn2. simpl. by rewrite Hname. }
  split.
  - unfold Spec.label_of. by rewrite H1, H2.
  - unfold _before_data_processing, mbind, M_bind, gets, lift, do_call, modify; simpl.
    rewrite H1. simpl. rewrite H2. simpl. rewrite decide_True by done. simpl. eauto.
Qed.
End BeforeDataProcessingMore.

(** ** More on the folders and the items of [SgLatestPublishModel] *)

Section FolderItemsMore.
Import Py Qt SgLatestPublishModel Behaviour.
Variable SG_DATA_ROLE : Z.

Lemma load_external_item_exact tv self :
  load_external_item SG_DATA_ROLE tv self =
    ({| _publish_type_field := _publish_type_field self;
        _treeview_folder_items := _treeview_folder_items self;
        _folder_items := (_folder_items self ++ [folder_item SG_DATA_ROLE tv])%list;
        rows := (rows self ++ [folder_item SG_DATA_ROLE tv])%list;
        calls := (calls self ++ option_list (folder_request SG_DATA_ROLE tv))%list |},
     Ok tt).
Proof.
  unfold load_external_item, folder_request, mbind, M_bind, appendRow,
    append_folder_item, do_call, modify, lift.
  destruct (tv_sg_data tv) as [d|]; simpl.
  - destruct (truthy (get d "image")) eqn:Himg; simpl.
    + unfold get in *. unfold getitem at 1.
      destruct (lookup_field d "image") as [v|]; [|done]. done.
    + by rewrite app_nil_r.
  - by rewrite app_nil_r.
Qed.

Lemma load_external_loop_exact tvs self :
  for_ tvs (load_external_item SG_DATA_ROLE) self =
    ({| _publish_type_field := _publish_type_field self;
        _treeview_folder_items := _treeview_folder_items self;
        _folder_items := (_folder_items self ++ (folder_item SG_DATA_ROLE <$> tvs))%list;
        rows := (rows self ++ (folder_item SG_DATA_ROLE <$> tvs))%list;
        calls := (calls self ++ omap (folder_request SG_DATA_ROLE) tvs)%list |},
     Ok tt).
Proof.
  revert self. induction tvs as [|tv tvs IH]; intros self; simpl.
  - rewrite !app_nil_r. by destruct self.
  - unfold mbind, M_bind at 1. rewrite load_external_item_exact, IH. simpl.
    rewrite <- !app_assoc. simpl.
    by destruct (folder_request SG_DATA_ROLE tv).
Qed.

Lemma load_external_data_exact self :
  _load_external_data SG_DATA_ROLE self =
    ({| _publish_type_field := _publish_type_field self;
        _treeview_folder_items := _treeview_folder_items self;
        _folder_items := folder_item SG_DATA_ROLE <$> _treeview_folder_items self;
        rows := (rows self
                 ++ (folder_item SG_DATA_ROLE <$> _treeview_folder_items self))%list;
        calls := (calls self
                  ++ omap (folder_request SG_DATA_ROLE) (_treeview_folder_items self))%list |},
     Ok tt).
Proof.
  unfold _load_external_data, mbind, M_bind, set_folder_items, modify, gets; simpl.
  by rewrite load_external_loop_exact.
Qed.

(** X8: after [_load_external_data] the handles kept in [_folder_items] are
    the rows this call appended and nothing else, whatever handles were kept
    before; the folder list and the publish type field are as they were. *)
Theorem folder_handles_are_appended_rows self :
  let self' := (_load_external_data SG_DATA_ROLE self).1 in
  rows self' = (rows self ++ _folder_items self')%list
  ∧ length (_folder_items self') = length (_treeview_folder_items self)
  ∧ _treeview_folder_items self' = _treeview_folder_items self
  ∧ _publish_type_field self' = _publish_type_field self.
Proof.
  rewrite load_external_data_exact. simpl. by rewrite length_fmap.
Qed.

(** X9: [_load_external_data] asks for one thumbnail download per folder
    whose Shotgun data has an image, in the order of the folders, for the
    item it built for that folder and with the image, type and id of the
    folder's data; it makes no other call. *)
Theorem folder_thumbnail_requests self :
  calls (_load_external_data SG_DATA_ROLE self).1 =
    (calls self ++ omap (folder_request SG_DATA_ROLE) (_treeview_folder_items self))%list.
Proof. by rewrite load_external_data_exact. Qed.

End FolderItemsMore.

Section PopulateItemMore.
Import Py Qt SgLatestPublishModel Spec SgLatestPublishThumbnail.
Variable repr_link : entity_link → string.

(** X11: [_populate_item] files a record under the type id the second pass
    counted it for: on a record that [_before_data_processing] can label, it
    returns and sets [TYPE_ID_ROLE] to the type id of the record. *)
Theorem populate_item_agrees_with_aggregate self r k item :
  type_id_of repr_link (_publish_type_field self) r = Ok k →
  (_populate_item self r item).2 = Ok tt
  ∧ data (_populate_item self r item).1 TYPE_ID_ROLE = QValue k.
Proof.
  unfold Spec.type_id_of, label_and_type_id, getitem, get.
  destruct (lookup_field r (_publish_type_field self)) as [v|] eqn:Hv; simpl; [|done].
  intros Hk.
  unfold _populate_item, mbind, M_bind, modify, lift, get. rewrite Hv. simpl.
  destruct (truthy v) eqn:Htruthy; simpl in *.
  - destruct v as [|n|s|lnk]; simpl in *; try done.
    destruct (lookup_field r "name"); simpl in Hk; [|done].
    injection Hk as <-. split; [done|].
    unfold data, setData. simpl. by rewrite lookup_insert_eq.
  - destruct (lookup_field r "name"); simpl in Hk; [|done].
    injection Hk as <-. split; [done|].
    unfold data, setData. simpl. by rewrite lookup_insert_eq.
Qed.

(** X12: when the publish type field holds a truthy value that is not a
    link, [_populate_item] raises [TypeError] after it has marked the item as
    not a folder and given it the loading icon; [TYPE_ID_ROLE] is not
    written. *)
Theorem populate_item_type_error self r v item :
  lookup_field r (_publish_type_field self) = Some v →
  truthy v = true →
  (∀ lnk, v ≠ VLink lnk) →
  _populate_item self r item =
    (setIcon (IconOf _loading_icon) (setData (QBool false) IS_FOLDER_ROLE item),
     Raise TypeError).
Proof.
  intros Hv Htruthy Hlink.
  unfold _populate_item, mbind, M_bind, modify, lift, get. rewrite Hv. simpl.
  rewrite Htruthy. simpl.
  destruct v as [|n|s|lnk]; simpl; try done. by destruct (Hlink lnk).
Qed.

Variable create_standard_thumbnail : string → variant → QPixmap.
Variable SG_DATA_ROLE : Z.

(** X13: [_populate_thumbnail] composes the thumbnail as a folder thumbnail
    for the items [_load_external_data] builds and as a publish thumbnail for
    the items [_populate_item] has prepared, and leaves the text and the role
    data of the item alone. *)
Theorem thumbnail_follows_folder_role self tv r item path :
  SG_DATA_ROLE ≠ IS_FOLDER_ROLE →
  icon (_populate_thumbnail create_standard_thumbnail path
          (folder_item SG_DATA_ROLE tv)).1
    = Some (IconOf (create_standard_thumbnail path (QBool true)))
  ∧ icon (_populate_thumbnail create_standard_thumbnail path
            (_populate_item self r item).1).1
      = Some (IconOf (create_standard_thumbnail path (QBool false)))
  ∧ ∀ it, roles (_populate_thumbnail create_standard_thumbnail path it).1 = roles it
          ∧ text (_populate_thumbnail create_standard_thumbnail path it).1 = text it.
Proof.
  intros Hrole.
  unfold _populate_thumbnail, mbind, M_bind, gets, modify. simpl.
  split; [|split; [|done]].
  - unfold folder_item, data, setData. simpl.
    rewrite lookup_insert_ne by done.
    rewrite lookup_insert_ne by done.
    by rewrite lookup_insert_eq.
  - by rewrite populate_item_is_folder.
Qed.
End PopulateItemMore.

(** ** More on [SgPublishHistoryModel.load_data] *)

Section HistoryLoadDataMore.
Import Py Qt SgPublishHistoryModel.
Variable PUBLISHED_FILES_FIELDS : list string.

(** X14: when the publish has every group-by field, [load_data] asks the
    base class for the publishes that agree with it on each of these fields,
    one ["is"] filter per field in the configured order, followed by the
    configured publish filters, grouped by version number, and then triggers
    the refresh. *)
Theorem history_filters_follow_group_by_fields app sg_data self :
  Forall (λ field, is_Some (lookup_field sg_data field))
    (get_setting (publish_history_group_by_fields app) []) →
  load_data PUBLISHED_FILES_FIELDS app sg_data self =
    ({| _use_version_thumbnail_as_fallback := _use_version_thumbnail_as_fallback self;
        calls :=
          (calls self ++
            [ShotgunModel__load_data (published_file_entity_type app)
               (((λ field, (field, "is", get sg_data field))
                   <$> get_setting (publish_history_group_by_fields app) [])
                ++ get_setting (publish_filters app) [])
               ["version_number"]
               ((if decide (published_file_entity_type app = "PublishedFile")
                 then "published_file_type" else "tank_type")
                :: PUBLISHED_FILES_FIELDS
                ++ get_setting (published_file_fields app) []);
             _refresh_data])%list |},
     Ok tt).
Proof.
  intros Hall.
  unfold load_data, mbind, M_bind, lift, do_call, modify.
  rewrite (group_by_filters_ok _ _ [] Hall). simpl.
  by rewrite <- app_assoc.
Qed.

(** X15: when the publish lacks a group-by field, [load_data] raises the
    [KeyError] of the first such field, makes no call on the base class and
    leaves the model as it was. *)
Theorem history_missing_group_field app sg_data self before field after :
  get_setting (publish_history_group_by_fields app) [] = (before ++ field :: after)%list →
  Forall (λ field, is_Some (lookup_field sg_data field)) before →
  lookup_field sg_data field = None →
  load_data PUBLISHED_FILES_FIELDS app sg_data self = (self, Raise (KeyError field)).
Proof.
  intros Hgroup Hall Hnone.
  unfold load_data, mbind, M_bind, lift, do_call, modify.
  rewrite Hgroup. by rewrite (group_by_filters_missing _ _ _ _ [] Hall Hnone).
Qed.
End HistoryLoadDataMore.

(** ** [SgPublishHistoryModel._populate_item] *)

Section HistoryPopulateItem.
Import Py Qt SgPublishHistoryModel SgPublishHistoryHooks Behaviour.

Lemma padded_in_order_1000 : padded_in_order 1000 = true.
Proof. vm_cast_no_check (eq_refl true). Qed.

Lemma padded_in_order_spec (m a b : nat) :
  padded_in_order m = true → (a < m)%nat → (b < m)%nat →
  Nat.ltb a b = String.ltb (format_03d (Z.of_nat a)) (format_03d (Z.of_nat b)).
Proof.
  unfold padded_in_order. intros Htable Ha Hb.
  rewrite forallb_forall in Htable.
  specialize (Htable (a, format_03d (Z.of_nat a))).
  rewrite forallb_forall in Htable.
  apply Bool.eqb_prop.
  apply (Htable ltac:(apply (in_map (λ a, (a, format_03d (Z.of_nat a)))), in_seq; lia)
                (b, format_03d (Z.of_nat b))).
  apply (in_map (λ a, (a, format_03d (Z.of_nat a)))), in_seq. lia.
Qed.

Lemma format_03d_order (a b : Z) :
  0 ≤ a < 1000 → 0 ≤ b < 1000 →
  (a < b ↔ String.ltb (format_03d a) (format_03d b) = true).
Proof.
  intros Ha Hb.
  pose proof (padded_in_order_spec 1000 (Z.to_nat a) (Z.to_nat b)
                padded_in_order_1000 ltac:(lia) ltac:(lia)) as Hab.
  rewrite !Z2Nat.id in Hab by lia.
  rewrite <- Hab, Nat.ltb_lt. lia.
Qed.

(** The text of the item after [_populate_item], whatever happens in the
    part that asks for the user thumbnail. *)
Lemma populate_item_text self sg_data s n :
  get sg_data "version_number" = VInt n → n ≠ 0 →
  text (the_item (_populate_item self sg_data s).1) = format_03d n.
Proof.
  intros Hv Hn.
  unfold _populate_item, mbind, M_bind, lift, update_item,
    _request_thumbnail_download, modify, gets.
  rewrite Hv. simpl.
  destruct (n =? 0) eqn:Hz; [lia|]. simpl.
  destruct (truthy (get sg_data "created_by.HumanUser.image")); [|done].
  destruct (getitem sg_data "created_by.HumanUser.image"); [|done].
  destruct (getitem sg_data "created_by") as [c|]; [|done].
  destruct (subscript c "type"); [|done].
  by destruct (subscript c "id").
Qed.

(** X16: for versions from 1 to 999, the texts [_populate_item] gives two
    items compare as strings the way their version numbers compare as
    numbers, which is what the zero padding is there for. *)
Theorem padded_versions_sort_numerically self r1 r2 s1 s2 a b :
  get r1 "version_number" = VInt a →
  get r2 "version_number" = VInt b →
  0 < a < 1000 → 0 < b < 1000 →
  (a < b ↔
   String.ltb (text (the_item (_populate_item self r1 s1).1))
              (text (the_item (_populate_item self r2 s2).1)) = true).
Proof.
  intros H1 H2 Ha Hb.
  rewrite (populate_item_text _ _ _ _ H1), (populate_item_text _ _ _ _ H2) by lia.
  apply format_03d_order; lia.
Qed.

(** X17: a publish with a user image but without a [created_by] link makes
    [_populate_item] raise ([KeyError] when the field is missing, [TypeError]
    when it holds no link) without asking for any download; its version
    number is a number or falsy. *)
Theorem user_thumbnail_needs_created_by self sg_data s :
  truthy (get sg_data user_image_field) = true →
  (∀ l, lookup_field sg_data "created_by" ≠ Some (VLink l)) →
  (truthy (get sg_data "version_number") = false
   ∨ ∃ n, get sg_data "version_number" = VInt n) →
  requests (_populate_item self sg_data s).1 = requests s
  ∧ (_populate_item self sg_data s).2 =
      Raise (match lookup_field sg_data "created_by" with
             | None => KeyError "created_by"
             | Some _ => TypeError
             end).
Proof.
  unfold user_image_field. intros Himg Hcb Hver.
  unfold _populate_item, mbind, M_bind, lift, update_item,
    _request_thumbnail_download, modify, gets.
  rewrite Himg. unfold getitem.
  unfold get in Himg |- *.
  destruct (lookup_field sg_data "created_by.HumanUser.image"); [|done].
  assert (Hraise : ∀ c, lookup_field sg_data "created_by" = Some c →
                        subscript c "type" = Raise TypeError).
  { intros [|n|str|l] Hc; try done. by destruct (Hcb l). }
  destruct Hver as [Hver|[n Hver]]; unfold get in Hver; rewrite Hver; simpl.
  - destruct (lookup_field sg_data "created_by") as [c|]; simpl; [|done].
    by rewrite (Hraise c).
  - destruct (negb (n =? 0)); simpl.
    + destruct (lookup_field sg_data "created_by") as [c|]; simpl; [|done].
      by rewrite (Hraise c).
    + destruct (lookup_field sg_data "created_by") as [c|]; simpl; [|done].
      by rewrite (Hraise c).
Qed.

(** X18: on a publish with a user image and a [created_by] link,
    [_populate_item] asks for exactly one download: the user image field of
    the publish, for the item as it is after the text was set, with the type
    and id of the user. *)
Theorem user_thumbnail_requested self sg_data s l :
  truthy (get sg_data user_image_field) = true →
  lookup_field sg_data "created_by" = Some (VLink l) →
  (truthy (get sg_data "version_number") = false
   ∨ ∃ n, get sg_data "version_number" = VInt n) →
  (_populate_item self sg_data s).2 = Ok tt
  ∧ requests (_populate_item self sg_data s).1 =
      (requests s ++
        [Request (the_item (_populate_item self sg_data s).1) user_image_field
           (get sg_data user_image_field) (VStr (link_type l)) (VInt (link_id l))])%list.
Proof.
  unfold user_image_field. intros Himg Hcb Hver.
  unfold _populate_item, mbind, M_bind, lift, update_item,
    _request_thumbnail_download, modify, gets.
  rewrite Himg. unfold getitem. rewrite Hcb.
  unfold get in Himg |- *.
  destruct (lookup_field sg_data "created_by.HumanUser.image"); [|done].
  destruct Hver as [Hver|[n Hver]].
  - unfold get in Hver. by rewrite Hver.
  - unfold get in Hver. rewrite Hver. simpl. by destruct (negb (n =? 0)).
Qed.
End HistoryPopulateItem.

(** ** More on the thumbnails of [SgPublishHistoryModel] *)

Section ThumbnailsMore.
Import Py Qt SgPublishHistoryModel SgPublishHistoryHooks Behaviour.
Variable get_thumbnail_field_for_item : QStandardItem → bool → option string.

Local Abbreviation deliver := (_populate_thumbnail_image get_thumbnail_field_for_item).
Local Abbreviation expected self item :=
  (get_thumbnail_field_for_item item (_use_version_thumbnail_as_fallback self)).

(** Reads [data] of an item whose roles are a chain of insertions. *)
Ltac role_lookups :=
  unfold data; simpl;
  repeat (rewrite lookup_insert_eq || rewrite lookup_insert_ne by done);
  simpl.

(** A delivery for the thumbnail field of the item. *)
Lemma deliver_publish self field image path item :
  expected self item = Some field → field ≠ "" →
  (deliver self field image path item).1 =
    {| icon := Some (overlayed (Some (fromImage image))
                       (as_pixmap (data item USER_THUMB_ROLE)));
       text := text item;
       roles := <[PUBLISH_THUMB_ROLE := QPix (fromImage image)]> (roles item) |}.
Proof.
  intros Hexp Hne.
  unfold _populate_thumbnail_image, mbind, M_bind, gets, modify; simpl.
  rewrite Hexp. simpl.
  rewrite (proj2 (String.eqb_neq field "")) by done.
  rewrite bool_decide_eq_true_2 by done. simpl.
  unfold setIcon, setData, data. simpl.
  rewrite lookup_insert_eq. by rewrite lookup_insert_ne.
Qed.

(** A delivery of the user image to an item that has another thumbnail
    field. *)
Lemma deliver_user self image path item :
  expected self item ≠ Some user_image_field →
  (deliver self user_image_field image path item).1 =
    {| icon := Some (overlayed (as_pixmap (data item PUBLISH_THUMB_ROLE))
                       (Some (fromImage image)));
       text := text item;
       roles := <[USER_THUMB_ROLE := QPix (fromImage image)]> (roles item) |}.
Proof.
  intros Hexp.
  unfold _populate_thumbnail_image, user_image_field, mbind, M_bind, gets, modify; simpl.
  rewrite (bool_decide_eq_false_2 (Some _ = _)) by done.
  rewrite andb_false_r. simpl.
  unfold setIcon, setData, data. simpl.
  rewrite lookup_insert_eq. by rewrite lookup_insert_ne.
Qed.

(** A delivery for a field the item does not expect. *)
Lemma deliver_other self field image path item :
  expected self item ≠ Some field → field ≠ user_image_field →
  (deliver self field image path item).1 =
    {| icon := Some (overlayed (as_pixmap (data item PUBLISH_THUMB_ROLE))
                       (as_pixmap (data item USER_THUMB_ROLE)));
       text := text item;
       roles := roles item |}.
Proof.
  intros Hexp Huser.
  unfold _populate_thumbnail_image, user_image_field, mbind, M_bind, gets, modify; simpl.
  rewrite (bool_decide_eq_false_2 (Some _ = _)) by done.
  rewrite andb_false_r. simpl.
  by rewrite bool_decide_eq_false_2.
Qed.

(** A delivery for an empty field name when that is what the item expects:
    the empty name is falsy. *)
Lemma deliver_empty self image path item :
  expected self item = Some "" →
  (deliver self "" image path item).1 =
    {| icon := Some (overlayed (as_pixmap (data item PUBLISH_THUMB_ROLE))
                       (as_pixmap (data item USER_THUMB_ROLE)));
       text := text item;
       roles := roles item |}.
Proof.
  intros Hexp.
  unfold _populate_thumbnail_image, mbind, M_bind, gets, modify; simpl.
  by rewrite Hexp.
Qed.

Lemma expected_stable self r v p t item :
  stable_under get_thumbnail_field_for_item [PUBLISH_THUMB_ROLE; USER_THUMB_ROLE] →
  r ∈ [PUBLISH_THUMB_ROLE; USER_THUMB_ROLE] →
  expected self {| icon := Some p; text := t; roles := <[r := v]> (roles item) |}
  = expected self {| icon := icon item; text := t; roles := roles item |}.
Proof.
  intros [Hicon Hdata] Hr.
  change {| icon := Some p; text := t; roles := <[r := v]> (roles item) |}
    with (setIcon p (setData v r {| icon := icon item; text := t; roles := roles item |})).
  rewrite Hicon. by apply Hdata.
Qed.

Lemma expected_stable_icon self p item :
  stable_under get_thumbnail_field_for_item [PUBLISH_THUMB_ROLE; USER_THUMB_ROLE] →
  expected self {| icon := Some p; text := text item; roles := roles item |}
  = expected self item.
Proof. intros [Hicon _]. exact (Hicon p item _). Qed.

Lemma item_eta (item : QStandardItem) :
  {| icon := icon item; text := text item; roles := roles item |} = item.
Proof. by destruct item. Qed.

(** X19: a delivered user image is stored as the user thumbnail, except on an
    item whose own thumbnail field is the user image field: there it is
    stored as the publish thumbnail and the user thumbnail stays as it is. *)
Theorem user_image_delivery self image path item :
  data (deliver self user_image_field image path item).1 USER_THUMB_ROLE =
    (if decide (expected self item = Some user_image_field)
     then data item USER_THUMB_ROLE else QPix (fromImage image))
  ∧ data (deliver self user_image_field image path item).1 PUBLISH_THUMB_ROLE =
      (if decide (expected self item = Some user_image_field)
       then QPix (fromImage image) else data item PUBLISH_THUMB_ROLE).
Proof.
  destruct (decide (expected self item = Some user_image_field)) as [Heq|Hne].
  - rewrite (deliver_publish _ _ _ _ _ Heq) by done.
    unfold data. simpl. rewrite lookup_insert_eq. by rewrite lookup_insert_ne.
  - rewrite (deliver_user _ _ _ _ Hne).
    unfold data. simpl. rewrite lookup_insert_eq. by rewrite lookup_insert_ne.
Qed.

(** X20: the publish thumbnail and the user thumbnail of an item may arrive
    in either order: the item ends up the same. The thumbnail field of the
    item must not depend on its icon or on the two thumbnail data, and must
    not be the user image field. *)
Theorem deliveries_commute self field publish_image user_image path path' item :
  stable_under get_thumbnail_field_for_item [PUBLISH_THUMB_ROLE; USER_THUMB_ROLE] →
  expected self item = Some field →
  field ≠ "" →
  field ≠ user_image_field →
  (deliver self user_image_field user_image path'
     (deliver self field publish_image path item).1).1
  = (deliver self field publish_image path
       (deliver self user_image_field user_image path' item).1).1.
Proof.
  intros Hstable Hexp Hne Huser.
  assert (Hexp' : expected self item ≠ Some user_image_field) by congruence.
  rewrite (deliver_publish _ _ _ _ item Hexp Hne).
  rewrite (deliver_user _ _ _ item Hexp').
  rewrite deliver_user, deliver_publish; try done.
  - role_lookups. f_equal. apply insert_insert_ne. done.
  - rewrite (expected_stable _ _ _ _ _ _ Hstable) by set_solver.
    by rewrite item_eta.
  - rewrite (expected_stable _ _ _ _ _ _ Hstable) by set_solver.
    by rewrite item_eta.
Qed.

(** X21: a second delivery for the same field replaces the first: the item
    ends up as if only the second image had been delivered. *)
Theorem redelivery_replaces self field image image' path path' item :
  stable_under get_thumbnail_field_for_item [PUBLISH_THUMB_ROLE; USER_THUMB_ROLE] →
  (deliver self field image' path' (deliver self field image path item).1).1
  = (deliver self field image' path' item).1.
Proof.
  intros Hstable.
  destruct (decide (expected self item = Some field)) as [Hexp|Hexp].
  - destruct (decide (field = "")) as [->|Hne].
    + rewrite (deliver_empty _ _ _ item Hexp).
      rewrite !deliver_empty; try done.
      by rewrite expected_stable_icon.
    + rewrite (deliver_publish _ _ _ _ item Hexp Hne).
      rewrite !deliver_publish; try done.
      * role_lookups. f_equal. apply insert_insert_eq.
      * rewrite (expected_stable _ _ _ _ _ _ Hstable) by set_solver.
        by rewrite item_eta.
  - destruct (decide (field = user_image_field)) as [->|Huser].
    + rewrite (deliver_user _ _ _ item Hexp).
      rewrite !deliver_user; try done.
      * role_lookups. f_equal. apply insert_insert_eq.
      * rewrite (expected_stable _ _ _ _ _ _ Hstable) by set_solver.
        by rewrite item_eta.
    + rewrite (deliver_other _ _ _ _ item Hexp Huser).
      rewrite !deliver_other; try done.
      by rewrite expected_stable_icon.
Qed.

(** X22: the default thumbnail leaves no trace once the real one arrives:
    delivering the publish thumbnail after [_populate_default_thumbnail]
    gives the item that the delivery alone gives. *)
Theorem default_thumbnail_is_replaced self field image path item :
  stable_under get_thumbnail_field_for_item [PUBLISH_THUMB_ROLE; USER_THUMB_ROLE] →
  expected self item = Some field →
  field ≠ "" →
  (deliver self field image path (_populate_default_thumbnail self item).1).1
  = (deliver self field image path item).1.
Proof.
  intros Hstable Hexp Hne.
  assert (Hdefault : (_populate_default_thumbnail self item).1 =
            {| icon := Some (overlayed (Some _loading_icon) None);
               text := text item;
               roles := <[PUBLISH_THUMB_ROLE := QPix _loading_icon]> (roles item) |}).
  { unfold _populate_default_thumbnail, mbind, M_bind, gets, modify. simpl.
    unfold setIcon, setData, data. simpl. by rewrite lookup_insert_eq. }
  rewrite Hdefault.
  rewrite !deliver_publish; try done.
  - role_lookups. f_equal. apply insert_insert_eq.
  - rewrite (expected_stable _ _ _ _ _ _ Hstable) by set_solver.
    by rewrite item_eta.
Qed.
End ThumbnailsMore.

(** ** Instances of the further properties *)

Section MoreWitnesses.
Import Py Qt Spec Behaviour Sample Sample2.

Local Abbreviation run := (SgLatestPublishModel._before_data_processing repr_link).

Lemma returned_records_come_from_input_witness :
  (∀ r, r ∈ [a_v3; b_v1] → r ∈ [a_v1; b_v1; a_v3])
  ∧ (length [a_v3; b_v1] ≤ length [a_v1; b_v1; a_v3])%nat.
Proof.
  exact (returned_records_come_from_input repr_link latest_model _ _ _ sample_sorted_run).
Defined.

Lemma sample_distinct_labels :
  Forall2 (λ r label, label_text repr_link "published_file_type" r = Some label)
    [a_v3; b_v1] ["A, Maya Scene"; "B, No Type"].
Proof. repeat constructor. Qed.

Lemma sample_labels_NoDup : NoDup ["A, Maya Scene"; "B, No Type"].
Proof.
  apply NoDup_cons. split; [|apply NoDup_singleton].
  intros Hin. apply list_elem_of_singleton in Hin. discriminate Hin.
Qed.

Lemma distinct_labels_all_returned_witness :
  ∃ self' out, run [a_v3; b_v1] latest_model = (self', Ok out) ∧ out ≡ₚ [a_v3; b_v1].
Proof.
  exact (distinct_labels_all_returned repr_link latest_model [a_v3; b_v1]
           ["A, Maya Scene"; "B, No Type"] sample_distinct_labels sample_labels_NoDup).
Defined.

Lemma before_data_processing_idempotent_witness :
  ∃ self'' out',
    run [b_v1; a_v3] (run [a_v1; b_v1; a_v3] latest_model).1 = (self'', Ok out')
    ∧ out' ≡ₚ [a_v3; b_v1].
Proof.
  apply (before_data_processing_idempotent repr_link latest_model _ _ _
           sample_sorted_run [b_v1; a_v3]).
  apply perm_swap.
Defined.

Lemma sample_raise :
  run [a_v1; nameless; b_v1] latest_model = (latest_model, Raise (KeyError "name")).
Proof. vm_compute. reflexivity. Qed.

Lemma raise_leaves_model_untouched_witness :
  latest_model = latest_model
  ∧ ∃ l1 r l2, [a_v1; nameless; b_v1] = (l1 ++ r :: l2)%list
      ∧ Forall (λ r', ∃ label, label_of repr_link "published_file_type" r' = Ok label) l1
      ∧ SgLatestPublishModel.label_and_type_id repr_link "published_file_type" r
        = Raise (KeyError "name").
Proof.
  exact (raise_leaves_model_untouched repr_link latest_model _ _ _ sample_raise).
Defined.

Lemma active_types_are_returned_types_witness :
  SgLatestPublishModel.calls (run [a_v1; b_v1; a_v3] latest_model).1
    = [SgLatestPublishModel.set_active_types [(VInt 7, 1%nat); (VNone, 1%nat)]]
  ∧ (∀ k, k ∈ dict_keys [(VInt 7, 1%nat); (VNone, 1%nat)] ↔
          ∃ r, r ∈ [a_v3; b_v1] ∧ publish_type_id "published_file_type" r = k)
  ∧ (∀ k c, dict_get [(VInt 7, 1%nat); (VNone, 1%nat)] k = Some c → (0 < c)%nat).
Proof.
  destruct (active_types_are_returned_types repr_link latest_model _ _ _ sample_sorted_run)
    as (before & aggr & Hcalls & Hkeys & Hpos).
  rewrite sample_sorted_calls in Hcalls.
  destruct before as [|c before].
  - injection Hcalls as <-. split; [exact sample_sorted_calls|]. by split.
  - destruct before; discriminate Hcalls.
Defined.

Lemma untyped_collides_with_no_type_witness :
  label_of repr_link "published_file_type" b_v1
    = label_of repr_link "published_file_type" no_type_b
  ∧ ∃ self', run [b_v1; no_type_b] latest_model = (self', Ok [no_type_b]).
Proof.
  apply (untyped_collides_with_no_type repr_link latest_model b_v1 no_type_b
           (VStr "B") VNone (EntityLink "PublishedFileType" 9 (Some "No Type")));
    reflexivity.
Defined.

Lemma populate_item_agrees_with_aggregate_witness :
  (SgLatestPublishModel._populate_item latest_model a_v3 blank_item).2 = Ok tt
  ∧ data (SgLatestPublishModel._populate_item latest_model a_v3 blank_item).1
      SgLatestPublishModel.TYPE_ID_ROLE = QValue (VInt 7).
Proof.
  apply (populate_item_agrees_with_aggregate repr_link latest_model a_v3 (VInt 7)
           blank_item).
  reflexivity.
Defined.

Lemma populate_item_type_error_witness :
  SgLatestPublishModel._populate_item latest_model mistyped blank_item =
    (setIcon (IconOf SgLatestPublishModel._loading_icon)
       (setData (QBool false) SgLatestPublishModel.IS_FOLDER_ROLE blank_item),
     Raise TypeError).
Proof.
  apply (populate_item_type_error latest_model mistyped (VStr "Maya Scene") blank_item).
  - reflexivity.
  - reflexivity.
  - intros lnk. discriminate.
Defined.

Lemma thumbnail_follows_folder_role_witness :
  icon (SgLatestPublishThumbnail._populate_thumbnail standard_thumbnail "/tmp/t.jpg"
          (SgLatestPublishModel.folder_item (UserRole + 1) shot_folder)).1
    = Some (IconOf (standard_thumbnail "/tmp/t.jpg" (QBool true)))
  ∧ icon (SgLatestPublishThumbnail._populate_thumbnail standard_thumbnail "/tmp/t.jpg"
            (SgLatestPublishModel._populate_item latest_model a_v3 blank_item).1).1
      = Some (IconOf (standard_thumbnail "/tmp/t.jpg" (QBool false)))
  ∧ ∀ it,
      roles (SgLatestPublishThumbnail._populate_thumbnail standard_thumbnail
               "/tmp/t.jpg" it).1 = roles it
      ∧ text (SgLatestPublishThumbnail._populate_thumbnail standard_thumbnail
                "/tmp/t.jpg" it).1 = text it.
Proof.
  apply (thumbnail_follows_folder_role standard_thumbnail (UserRole + 1) latest_model
           shot_folder a_v3 blank_item "/tmp/t.jpg").
  vm_compute. discriminate.
Defined.

Lemma sample_group_fields :
  Forall (λ field, is_Some (lookup_field a_v1 field)) ["name"; "version_number"].
Proof. repeat constructor; by eexists. Qed.

Lemma history_filters_follow_group_by_fields_witness :
  SgPublishHistoryModel.load_data ["image"] grouping_app a_v1 history_model =
    ({| SgPublishHistoryModel._use_version_thumbnail_as_fallback := false;
        SgPublishHistoryModel.calls :=
          [SgPublishHistoryModel.ShotgunModel__load_data "PublishedFile"
             [("name", "is", VStr "A"); ("version_number", "is", VInt 1);
              ("sg_status_list", "is_not", VStr "omit")]
             ["version_number"]
             ["published_file_type"; "image"; "path"];
           SgPublishHistoryModel._refresh_data] |},
     Ok tt).
Proof.
  exact (history_filters_follow_group_by_fields ["image"] grouping_app a_v1 history_model
           sample_group_fields).
Defined.

Lemma history_missing_group_field_witness :
  SgPublishHistoryModel.load_data ["image"] task_app a_v1 history_model
  = (history_model, Raise (KeyError "task")).
Proof.
  apply (history_missing_group_field ["image"] task_app a_v1 history_model
           ["name"] "task" []).
  - reflexivity.
  - repeat constructor. by eexists.
  - reflexivity.
Defined.

Lemma padded_versions_sort_numerically_witness :
  1 < 3 ↔
  String.ltb
    (text (SgPublishHistoryHooks.the_item
             (SgPublishHistoryHooks._populate_item history_model a_v1 fresh).1))
    (text (SgPublishHistoryHooks.the_item
             (SgPublishHistoryHooks._populate_item history_model a_v3 fresh).1)) = true.
Proof.
  apply (padded_versions_sort_numerically history_model a_v1 a_v3 fresh fresh 1 3);
    [reflexivity|reflexivity|lia|lia].
Defined.

Lemma user_thumbnail_needs_created_by_witness :
  SgPublishHistoryHooks.requests
    (SgPublishHistoryHooks._populate_item history_model orphan_image fresh).1
    = SgPublishHistoryHooks.requests fresh
  ∧ (SgPublishHistoryHooks._populate_item history_model orphan_image fresh).2 =
      Raise (match lookup_field orphan_image "created_by" with
             | None => KeyError "created_by"
             | Some _ => TypeError
             end).
Proof.
  apply (user_thumbnail_needs_created_by history_model orphan_image fresh).
  - reflexivity.
  - intros l. discriminate.
  - by left.
Defined.

Lemma user_thumbnail_requested_witness :
  (SgPublishHistoryHooks._populate_item history_model version_by_artist fresh).2 = Ok tt
  ∧ SgPublishHistoryHooks.requests
      (SgPublishHistoryHooks._populate_item history_model version_by_artist fresh).1 =
      (SgPublishHistoryHooks.requests fresh ++
        [SgPublishHistoryHooks.Request
           (SgPublishHistoryHooks.the_item
              (SgPublishHistoryHooks._populate_item history_model version_by_artist fresh).1)
           user_image_field (get version_by_artist user_image_field)
           (VStr "HumanUser") (VInt 42)])%list.
Proof.
  apply (user_thumbnail_requested history_model version_by_artist fresh
           (EntityLink "HumanUser" 42 (Some "Ada"))).
  - reflexivity.
  - reflexivity.
  - right. by exists 7.
Defined.

Lemma sample_stable :
  stable_under thumbnail_field
    [SgPublishHistoryModel.PUBLISH_THUMB_ROLE; SgPublishHistoryModel.USER_THUMB_ROLE].
Proof. by split. Qed.

Lemma deliveries_commute_witness :
  (SgPublishHistoryModel._populate_thumbnail_image thumbnail_field history_model
     user_image_field "user.jpg" "/tmp/u.jpg"
     (SgPublishHistoryModel._populate_thumbnail_image thumbnail_field history_model
        "image" "publish.jpg" "/tmp/p.jpg" blank_item).1).1
  = (SgPublishHistoryModel._populate_thumbnail_image thumbnail_field history_model
       "image" "publish.jpg" "/tmp/p.jpg"
       (SgPublishHistoryModel._populate_thumbnail_image thumbnail_field history_model
          user_image_field "user.jpg" "/tmp/u.jpg" blank_item).1).1.
Proof.
  apply (deliveries_commute thumbnail_field history_model "image" "publish.jpg"
           "user.jpg" "/tmp/p.jpg" "/tmp/u.jpg" blank_item sample_stable).
  - reflexivity.
  - discriminate.
  - discriminate.
Defined.

Lemma redelivery_replaces_witness :
  (SgPublishHistoryModel._populate_thumbnail_image thumbnail_field history_model
     "image" "second.jpg" "/tmp/2.jpg"
     (SgPublishHistoryModel._populate_thumbnail_image thumbnail_field history_model
        "image" "first.jpg" "/tmp/1.jpg" blank_item).1).1
  = (SgPublishHistoryModel._populate_thumbnail_image thumbnail_field history_model
       "image" "second.jpg" "/tmp/2.jpg" blank_item).1.
Proof.
  exact (redelivery_replaces thumbnail_field history_model "image" "first.jpg"
           "second.jpg" "/tmp/1.jpg" "/tmp/2.jpg" blank_item sample_stable).
Defined.

Lemma default_thumbnail_is_replaced_witness :
  (SgPublishHistoryModel._populate_thumbnail_image thumbnail_field history_model
     "image" "publish.jpg" "/tmp/p.jpg"
     (SgPublishHistoryHooks._populate_default_thumbnail history_model blank_item).1).1
  = (SgPublishHistoryModel._populate_thumbnail_image thumbnail_field history_model
       "image" "publish.jpg" "/tmp/p.jpg" blank_item).1.
Proof.
  apply (default_thumbnail_is_replaced thumbnail_field history_model "image"
           "publish.jpg" "/tmp/p.jpg" blank_item sample_stable).
  - reflexivity.
  - discriminate.
Defined.

(** Beyond version 999 the padded texts no longer sort like the numbers. *)
Example padding_stops_at_999 :
  String.ltb (SgPublishHistoryHooks.format_03d 1000)
             (SgPublishHistoryHooks.format_03d 999) = true.
Proof. vm_compute. reflexivity. Qed.

(** Version 0 is falsy: the text of the item is left as it is. *)
Example version_zero_keeps_text :
  text (SgPublishHistoryHooks.the_item
          (SgPublishHistoryHooks._populate_item history_model
             (publish 8 "A" 0 VNone) fresh).1) = "001".
Proof. vm_compute. reflexivity. Qed.
End MoreWitnesses.
